(** * Portfolio front end: the two pages of [task5/frontend/pages]

    A shallow embedding of [portfolio.js] (the allocation page) and of
    [index.js] (the watch-list page), with the part of the JavaScript
    runtime the two pages rely on: strings, JSON values, [Number],
    [RegExp.prototype.test] for the one pattern used, [fetch] and
    [setTimeout].

    A handler is run to its end at one point in time: the answers of the
    server are given beforehand by a [remote], the state it reads is the
    state of the render it was created in, and the messages and timers
    it sets are those of the path it takes. Time is in milliseconds and
    a timer runs at the time it is due. The runs of [Session] split a
    handler at its [await]s: what precedes the first runs when the
    handler is called, what follows one runs when the request settles. *)

From Stdlib Require Import ZArith NArith List Bool String Ascii Lia.
From Stdlib Require Import Floats.SpecFloat.
Import ListNotations.

Local Open Scope Z_scope.

#[local] Set Warnings "-register-all".

(** ** The JavaScript runtime used by the pages *)

Module Js.

(** A string is its sequence of UTF-16 code units. *)
Definition jstring := list N.

Definition str (s : string) : jstring :=
  map N_of_ascii (list_ascii_of_string s).

Fixpoint jstring_eqb (a b : jstring) : bool :=
  match a, b with
  | [], [] => true
  | x :: a', y :: b' => N.eqb x y && jstring_eqb a' b'
  | _, _ => false
  end.

(** Numbers are IEEE 754 binary64 values. *)
Definition prec : Z := 53.
Definition emax : Z := 1024.
Definition number := spec_float.

Definition isNaN (x : number) : bool :=
  match x with S754_nan => true | _ => false end.

(** [a < b] on numbers; any comparison with NaN is false. *)
Definition less_than (a b : number) : bool := SFltb a b.

(** [a > b] is [b < a]. *)
Definition greater_than (a b : number) : bool := less_than b a.

Definition of_Z (z : Z) : number := binary_normalize prec emax z 0 false.

Definition isFinite (x : number) : bool :=
  match x with S754_zero _ | S754_finite _ _ _ => true | _ => false end.

(** *** [Number(string)]: StringToNumber of ECMA-262 *)

(** StrWhiteSpaceChar: WhiteSpace (TAB, VT, FF, ZWNBSP and the space
    separators) and LineTerminator (LF, CR, LS, PS). *)
Definition is_white_space (c : N) : bool :=
  existsb (N.eqb c)
    [0x9; 0xB; 0xC; 0xFEFF; 0x20; 0xA0; 0x1680; 0x2000; 0x2001; 0x2002;
     0x2003; 0x2004; 0x2005; 0x2006; 0x2007; 0x2008; 0x2009; 0x200A;
     0x202F; 0x205F; 0x3000; 0xA; 0xD; 0x2028; 0x2029]%N.

Fixpoint skip_white_space (s : jstring) : jstring :=
  match s with
  | c :: r => if is_white_space c then skip_white_space r else s
  | [] => []
  end.

Definition trim (s : jstring) : jstring :=
  rev (skip_white_space (rev (skip_white_space s))).

(** The value of a digit in radix [radix] (2, 8, 10 or 16). *)
Definition digit_value (radix : N) (c : N) : option N :=
  let v :=
    if (48 <=? c)%N && (c <=? 57)%N then Some (c - 48)%N
    else if (97 <=? c)%N && (c <=? 102)%N then Some (c - 87)%N
    else if (65 <=? c)%N && (c <=? 70)%N then Some (c - 55)%N
    else None in
  match v with
  | Some d => if (d <? radix)%N then Some d else None
  | None => None
  end.

(** Reads the longest prefix of digits: the accumulated value, the number
    of digits read, and what follows them. *)
Fixpoint digits (radix : N) (acc : N) (count : N) (s : jstring)
  : N * N * jstring :=
  match s with
  | c :: r =>
      match digit_value radix c with
      | Some d => digits radix (acc * radix + d)%N (count + 1)%N r
      | None => (acc, count, s)
      end
  | [] => (acc, count, [])
  end.

(** ExponentPart, which must reach the end of the literal. *)
Definition exponent_part (s : jstring) : option Z :=
  match s with
  | [] => Some 0
  | c :: r =>
      if N.eqb c 101 || N.eqb c 69 then
        let '(neg, r') :=
          match r with
          | 43%N :: t => (false, t)
          | 45%N :: t => (true, t)
          | _ => (false, r)
          end in
        match digits 10 0 0 r' with
        | (v, count, []) =>
            if (0 <? count)%N
            then Some (if neg then - Z.of_N v else Z.of_N v)
            else None
        | _ => None
        end
      else None
  end.

(** StrUnsignedDecimalLiteral other than [Infinity]: the literal denotes
    [m * 10 ^ e] for the pair [(m, e)] returned. *)
Definition unsigned_decimal (s : jstring) : option (N * Z) :=
  let '(ip, ni, r1) := digits 10 0 0 s in
  match r1 with
  | 46%N :: r2 =>
      let '(m, nf, r3) := digits 10 ip 0 r2 in
      if (0 <? ni + nf)%N then
        match exponent_part r3 with
        | Some e => Some (m, e - Z.of_N nf)
        | None => None
        end
      else None
  | _ =>
      if (0 <? ni)%N then
        match exponent_part r1 with
        | Some e => Some (ip, e)
        | None => None
        end
      else None
  end.

(** NonDecimalIntegerLiteral: [0b], [0o] and [0x] literals, unsigned. *)
Definition non_decimal (s : jstring) : option N :=
  match s with
  | 48%N :: p :: r =>
      let radix :=
        if N.eqb p 120 || N.eqb p 88 then Some 16%N
        else if N.eqb p 111 || N.eqb p 79 then Some 8%N
        else if N.eqb p 98 || N.eqb p 66 then Some 2%N
        else None in
      match radix with
      | Some b =>
          match digits b 0 0 r with
          | (v, count, []) => if (0 <? count)%N then Some v else None
          | _ => None
          end
      | None => None
      end
  | _ => None
  end.

(** The double nearest to [m * 10 ^ e] (ties to even), with sign [neg]. *)
Definition round_decimal (neg : bool) (m : N) (e : Z) : number :=
  match m with
  | N0 => S754_zero neg
  | Npos p =>
      if 0 <=? e
      then binary_round prec emax neg (p * Z.to_pos (10 ^ e))%positive 0
      else SFdiv prec emax (S754_finite neg p 0)
                 (S754_finite false (Z.to_pos (10 ^ (- e))) 0)
  end.

Definition infinity_literal : jstring := str "Infinity".

Definition signed_decimal (s : jstring) : option number :=
  let '(neg, u) :=
    match s with
    | 43%N :: t => (false, t)
    | 45%N :: t => (true, t)
    | _ => (false, s)
    end in
  if jstring_eqb u infinity_literal then Some (S754_infinity neg)
  else
    match unsigned_decimal u with
    | Some (m, e) => Some (round_decimal neg m e)
    | None => None
    end.

Definition Number (s : jstring) : number :=
  match trim s with
  | [] => S754_zero false
  | t =>
      match signed_decimal t with
      | Some x => x
      | None =>
          match non_decimal t with
          | Some v => of_Z (Z.of_N v)
          | None => S754_nan
          end
      end
  end.

(** *** JSON values, as [res.json()] produces them, and [undefined] *)

Inductive value :=
  | VUndefined
  | VNull
  | VBool (b : bool)
  | VNum (x : number)
  | VStr (s : jstring)
  | VArr (elements : list value)
  | VObj (properties : list (jstring * value)).

(** [v === null] *)
Definition is_null (v : value) : bool :=
  match v with VNull => true | _ => false end.

(** ToBoolean: [undefined], [null], [false], zero, NaN and the empty
    string are falsy. *)
Definition truthy (v : value) : bool :=
  match v with
  | VUndefined | VNull => false
  | VBool b => b
  | VNum (S754_zero _) | VNum S754_nan => false
  | VNum _ => true
  | VStr s => negb (jstring_eqb s [])
  | VArr _ | VObj _ => true
  end.

(** [a || b] *)
Definition or_else (a b : value) : value := if truthy a then a else b.

Fixpoint lookup (k : jstring) (properties : list (jstring * value))
  : value :=
  match properties with
  | [] => VUndefined
  | (k', v) :: rest => if jstring_eqb k k' then v else lookup k rest
  end.

(** What the pages take from the engine without the source saying what
    it is: the text of a number, the message of the TypeError raised
    when a property of [null] or [undefined] is read, and the message of
    the TypeError raised when an object has no primitive value. *)
Class Engine := {
  number_to_string : number -> jstring;
  null_property_message : jstring -> jstring;
  primitive_message : jstring
}.

(** Exceptions: a computation returns or throws an [Error] with a
    message. *)
Inductive result (A : Type) :=
  | Return (a : A)
  | Throw (message : jstring).
Arguments Return {A} a.
Arguments Throw {A} message.

Definition bind {A B} (c : result A) (k : A -> result B) : result B :=
  match c with
  | Return a => k a
  | Throw m => Throw m
  end.

Notation "x <- c ;; k" := (bind c (fun x => k))
  (at level 61, c at next level, right associativity).

(** What [await fetch(...)] gives: it throws on a network failure, and
    otherwise returns a response with its [ok] flag and the outcome of
    [await res.json()]. *)
Record response (A : Type) := { ok : bool; json : result A }.
Arguments ok {A} r.
Arguments json {A} r.

Section WithEngine.
Context {engine : Engine}.

(** [v.k]: property lookup on an object; a TypeError on [null] and
    [undefined]; [undefined] on the other values, for the keys the pages
    read ([portfolio_value], [error]). *)
Definition get (v : value) (k : jstring) : result value :=
  match v with
  | VUndefined | VNull => Throw (null_property_message k)
  | VObj properties => Return (lookup k properties)
  | _ => Return VUndefined
  end.

(** Whether an object parsed from JSON has the own property [k]. *)
Definition has_own (k : jstring) (properties : list (jstring * value))
  : bool :=
  existsb (fun property => jstring_eqb k (fst property)) properties.

(** ToString, with [Array.prototype.join] for arrays. An object parsed
    from JSON is converted by [Object.prototype.toString], unless it has
    an own property [toString]: that one is not callable, [valueOf]
    gives no primitive either, and the conversion throws a TypeError. *)
Fixpoint to_string (v : value) : result jstring :=
  match v with
  | VUndefined => Return (str "undefined")
  | VNull => Return (str "null")
  | VBool true => Return (str "true")
  | VBool false => Return (str "false")
  | VNum x => Return (number_to_string x)
  | VStr s => Return s
  | VArr elements =>
      let element e :=
        match e with
        | VUndefined | VNull => Return []
        | _ => to_string e
        end in
      (fix join (l : list value) : result jstring :=
         match l with
         | [] => Return []
         | [e] => element e
         | e :: rest =>
             first <- element e ;;
             others <- join rest ;;
             Return (first ++ 44%N :: others)
         end) elements
  | VObj properties =>
      if has_own (str "toString") properties
      then Throw primitive_message
      else Return (str "[object Object]")
  end.

(** The message of [new Error(v)], when the constructor returns. *)
Definition error_message (v : value) : result jstring :=
  match v with
  | VUndefined => Return []
  | _ => to_string v
  end.

End WithEngine.

(** *** The two validators of [index.js] *)

(** [/^[A-Z]{1,5}$/.test(ticker)] *)
Definition validateStockTicker (ticker : jstring) : bool :=
  let n := List.length ticker in
  (1 <=? n)%nat && (n <=? 5)%nat
  && forallb (fun c => (65 <=? c)%N && (c <=? 90)%N) ticker.

Definition validatePositiveNumber (number : jstring) : bool :=
  let num := Number number in
  negb (isNaN num) && greater_than num (S754_zero false).

(** *** The remote collaborator *)

Record item := { id : value; ticker : value }.

(** The requests the pages send; a body is the object handed to
    [JSON.stringify]. *)
Inductive request :=
  | GetItems                            (* GET /items *)
  | PostItems (ticker : jstring)        (* POST /items {ticker} *)
  | DeleteItem (id : value)             (* DELETE /items/${id} *)
  | GetPortfolio                        (* GET /portfolio *)
  | PostPortfolio (v : number)          (* POST /portfolio {value} *)
  | PostCalculate (budget : value) (stocks : list value).
                                        (* POST /calculate_portfolio *)

(** What the server answers to each request at the time it is sent. The
    body of a successful GET /items is an array of [{id, ticker}]
    objects. *)
Record remote := {
  get_items : result (response (list item));
  post_items : jstring -> result (response value);
  delete_item : value -> result (response value);
  get_portfolio : result (response value);
  post_portfolio : number -> result (response value);
  post_calculate : value -> list value -> result (response value)
}.

End Js.


(** ** [portfolio.js]: the allocation page *)

Module Portfolio.
Import Js.

(** The component's state ([useState]) and the pending [setTimeout]
    callbacks, each given by the time at which it is due; every callback
    the page registers is [() => setErrorMessage("")]. *)
Record state := {
  portfolioValue : value;
  items : list item;
  allocationResults : value;
  errorMessage : jstring;
  timers : list Z
}.

Definition initial : state :=
  {| portfolioValue := VNull; items := []; allocationResults := VNull;
     errorMessage := []; timers := [] |}.

Definition setPortfolioValue (v : value) (st : state) : state :=
  {| portfolioValue := v; items := items st;
     allocationResults := allocationResults st;
     errorMessage := errorMessage st; timers := timers st |}.

Definition setItems (l : list item) (st : state) : state :=
  {| portfolioValue := portfolioValue st; items := l;
     allocationResults := allocationResults st;
     errorMessage := errorMessage st; timers := timers st |}.

Definition setAllocationResults (v : value) (st : state) : state :=
  {| portfolioValue := portfolioValue st; items := items st;
     allocationResults := v;
     errorMessage := errorMessage st; timers := timers st |}.

Definition setErrorMessage (m : jstring) (st : state) : state :=
  {| portfolioValue := portfolioValue st; items := items st;
     allocationResults := allocationResults st;
     errorMessage := m; timers := timers st |}.

(** [setTimeout(() => setErrorMessage(""), delay)] called at time [now]
    (milliseconds). Nothing on the page calls [clearTimeout]. *)
Definition setTimeout (now delay : Z) (st : state) : state :=
  {| portfolioValue := portfolioValue st; items := items st;
     allocationResults := allocationResults st;
     errorMessage := errorMessage st;
     timers := timers st ++ [now + delay] |}.

(** The event loop reaching time [t]: the callbacks due by then run and
    leave the queue. *)
Definition elapse (t : Z) (st : state) : state :=
  let pending := filter (fun due => t <? due) (timers st) in
  let st' :=
    if existsb (fun due => due <=? t) (timers st)
    then setErrorMessage [] st else st in
  {| portfolioValue := portfolioValue st'; items := items st';
     allocationResults := allocationResults st';
     errorMessage := errorMessage st'; timers := pending |}.

(** The pair of calls every error site makes: the message, then the
    timer that clears it 2000 ms later. *)
Definition showError (now : Z) (m : jstring) (st : state) : state :=
  setTimeout now 2000 (setErrorMessage m st).

Section Handlers.
Context {engine : Engine}.
Variable server : remote.

(** Each handler runs at time [now] on the state [st] and returns the
    new state with the requests it has sent. *)

Definition fetchPortfolioValue (now : Z) (st : state)
  : state * list request :=
  let attempt :=
    res <- get_portfolio server ;;
    if negb (ok res) then Throw (str "Network response was not ok")
    else
      data <- json res ;;
      v <- get data (str "portfolio_value") ;;
      Return (setPortfolioValue v st) in
  (match attempt with
   | Return st' => st'
   | Throw _ =>
       showError now (str "Error fetching portfolio value") st
   end, [GetPortfolio]).

Definition fetchItems (now : Z) (st : state) : state * list request :=
  let attempt :=
    res <- get_items server ;;
    if negb (ok res) then Throw (str "Network response was not ok")
    else
      data <- json res ;;
      Return (setItems data st) in
  (match attempt with
   | Return st' => st'
   | Throw _ =>
       showError now (str "Error fetching items") st
   end, [GetItems]).

Definition handleCalculate (now : Z) (st : state)
  : state * list request :=
  if is_null (portfolioValue st) || (List.length (items st) =? 0)%nat
  then
    (showError now
       (str "Ensure portfolio value and stock tickers are set.") st,
     [])
  else
    let budget := portfolioValue st in
    let stocks := map ticker (items st) in
    let attempt :=
      res <- post_calculate server budget stocks ;;
      if negb (ok res) then
        errorData <- json res ;;
        e <- get errorData (str "error") ;;
        message <-
          error_message
            (or_else e (VStr (str "Failed to calculate portfolio"))) ;;
        Throw message
      else
        data <- json res ;;
        Return (setAllocationResults data st) in
    (match attempt with
     | Return st' => st'
     | Throw message => showError now message st
     end, [PostCalculate budget stocks]).

End Handlers.

(** The ways the compute call fails, with the message each leaves in
    the thrown error. *)
Inductive failure {engine : Engine}
  : result (response value) -> jstring -> Prop :=
  | NetworkDown m :
      failure (Throw m) m
  | UnreadableBody b m :
      failure (Return {| ok := b; json := Throw m |}) m
  | ServerMessage properties s :
      lookup (str "error") properties = VStr s -> s <> [] ->
      failure
        (Return {| ok := false; json := Return (VObj properties) |}) s
  | ServerOther properties e m :
      lookup (str "error") properties = e -> truthy e = true ->
      to_string e = Return m ->
      failure
        (Return {| ok := false; json := Return (VObj properties) |}) m
  | ServerUnprintable properties e m :
      lookup (str "error") properties = e -> truthy e = true ->
      to_string e = Throw m ->
      failure
        (Return {| ok := false; json := Return (VObj properties) |}) m
  | NoServerMessage errorData e :
      get errorData (str "error") = Return e -> truthy e = false ->
      failure (Return {| ok := false; json := Return errorData |})
        (str "Failed to calculate portfolio")
  | NullBody errorData m :
      get errorData (str "error") = Throw m ->
      failure (Return {| ok := false; json := Return errorData |}) m.

End Portfolio.

(** ** [index.js]: the watch-list page *)

Module Home.
Import Js.

(** The two callbacks the page hands to [setTimeout]:
    [() => setTickerError("")] and [() => setPortfolioError("")]. *)
Inductive callback := ClearTickerError | ClearPortfolioError.

(** The component's state and the pending timers, each with the time at
    which it is due. [portfolioValue] is the text of the input field,
    [displayedPortfolioValue] the budget shown. *)
Record state := {
  items : list item;
  tickerInput : jstring;
  portfolioValue : jstring;
  displayedPortfolioValue : value;
  tickerError : jstring;
  portfolioError : jstring;
  timers : list (Z * callback)
}.

Definition initial : state :=
  {| items := []; tickerInput := []; portfolioValue := [];
     displayedPortfolioValue := VNull; tickerError := [];
     portfolioError := []; timers := [] |}.

Definition setItems (l : list item) (st : state) : state :=
  {| items := l; tickerInput := tickerInput st;
     portfolioValue := portfolioValue st;
     displayedPortfolioValue := displayedPortfolioValue st;
     tickerError := tickerError st; portfolioError := portfolioError st;
     timers := timers st |}.

Definition setTickerInput (s : jstring) (st : state) : state :=
  {| items := items st; tickerInput := s;
     portfolioValue := portfolioValue st;
     displayedPortfolioValue := displayedPortfolioValue st;
     tickerError := tickerError st; portfolioError := portfolioError st;
     timers := timers st |}.

Definition setPortfolioValue (s : jstring) (st : state) : state :=
  {| items := items st; tickerInput := tickerInput st;
     portfolioValue := s;
     displayedPortfolioValue := displayedPortfolioValue st;
     tickerError := tickerError st; portfolioError := portfolioError st;
     timers := timers st |}.

Definition setDisplayedPortfolioValue (v : value) (st : state) : state :=
  {| items := items st; tickerInput := tickerInput st;
     portfolioValue := portfolioValue st;
     displayedPortfolioValue := v;
     tickerError := tickerError st; portfolioError := portfolioError st;
     timers := timers st |}.

Definition setTickerError (m : jstring) (st : state) : state :=
  {| items := items st; tickerInput := tickerInput st;
     portfolioValue := portfolioValue st;
     displayedPortfolioValue := displayedPortfolioValue st;
     tickerError := m; portfolioError := portfolioError st;
     timers := timers st |}.

Definition setPortfolioError (m : jstring) (st : state) : state :=
  {| items := items st; tickerInput := tickerInput st;
     portfolioValue := portfolioValue st;
     displayedPortfolioValue := displayedPortfolioValue st;
     tickerError := tickerError st; portfolioError := m;
     timers := timers st |}.

Definition setTimers (l : list (Z * callback)) (st : state) : state :=
  {| items := items st; tickerInput := tickerInput st;
     portfolioValue := portfolioValue st;
     displayedPortfolioValue := displayedPortfolioValue st;
     tickerError := tickerError st; portfolioError := portfolioError st;
     timers := l |}.

(** [setTimeout(cb, delay)] called at time [now]. Nothing on the page
    calls [clearTimeout]. *)
Definition setTimeout (cb : callback) (now delay : Z) (st : state)
  : state :=
  setTimers (timers st ++ [(now + delay, cb)]) st.

Definition run (cb : callback) (st : state) : state :=
  match cb with
  | ClearTickerError => setTickerError [] st
  | ClearPortfolioError => setPortfolioError [] st
  end.

(** The event loop reaching time [t]: the callbacks due by then run, in
    the order of the queue, and leave it. *)
Definition elapse (t : Z) (st : state) : state :=
  fold_left (fun s timer => run (snd timer) s)
    (filter (fun timer => fst timer <=? t) (timers st))
    (setTimers (filter (fun timer => t <? fst timer) (timers st)) st).

(** The pair of calls every error site makes: the message, then the
    timer that clears it 2000 ms later. *)
Definition showTickerError (now : Z) (m : jstring) (st : state) : state :=
  setTimeout ClearTickerError now 2000 (setTickerError m st).

Definition showPortfolioError (now : Z) (m : jstring) (st : state)
  : state :=
  setTimeout ClearPortfolioError now 2000 (setPortfolioError m st).

Section Handlers.
Context {engine : Engine}.
Variable server : remote.

Definition fetchItems (now : Z) (st : state) : state * list request :=
  let attempt :=
    res <- get_items server ;;
    if negb (ok res) then Throw (str "Network response was not ok")
    else
      data <- json res ;;
      Return (setItems data st) in
  (match attempt with
   | Return st' => st'
   | Throw _ => showTickerError now (str "Error fetching items") st
   end, [GetItems]).

Definition fetchPortfolioValue (now : Z) (st : state)
  : state * list request :=
  let attempt :=
    res <- get_portfolio server ;;
    if negb (ok res) then Throw (str "Network response was not ok")
    else
      data <- json res ;;
      v <- get data (str "portfolio_value") ;;
      Return (setDisplayedPortfolioValue v st) in
  (match attempt with
   | Return st' => st'
   | Throw _ =>
       showPortfolioError now (str "Error fetching portfolio value") st
   end, [GetPortfolio]).

Definition handleTickerSubmit (now : Z) (st : state)
  : state * list request :=
  if negb (validateStockTicker (tickerInput st)) then
    (showTickerError now
       (str "Must put in a valid stock ticker (1-5 uppercase letters)") st,
     [])
  else
    let sent := PostItems (tickerInput st) in
    let attempt :=
      res <- post_items server (tickerInput st) ;;
      if ok res then
        Return (fetchItems now (setTickerInput [] st))
      else
        errorData <- json res ;;
        Return (showTickerError now (str "Failed to add item") st, []) in
    match attempt with
    | Return (st', more) => (st', sent :: more)
    | Throw _ => (showTickerError now (str "Error adding item") st, [sent])
    end.

Definition handlePortfolioSubmit (now : Z) (st : state)
  : state * list request :=
  if negb (validatePositiveNumber (portfolioValue st)) then
    (showPortfolioError now
       (str "Portfolio value must be a positive number") st,
     [])
  else
    let sent := PostPortfolio (Number (portfolioValue st)) in
    let attempt :=
      res <- post_portfolio server (Number (portfolioValue st)) ;;
      if ok res then
        Return
          (setPortfolioValue []
             (setDisplayedPortfolioValue
                (VNum (Number (portfolioValue st))) st))
      else
        errorData <- json res ;;
        Return
          (showPortfolioError now (str "Failed to set portfolio value") st)
    in
    (match attempt with
     | Return st' => st'
     | Throw _ =>
         showPortfolioError now (str "Error setting portfolio value") st
     end, [sent]).

Definition handleDelete (id : value) (now : Z) (st : state)
  : state * list request :=
  let sent := DeleteItem id in
  let attempt :=
    res <- delete_item server id ;;
    if ok res then
      Return (fetchItems now st)
    else
      errorData <- json res ;;
      Return (showTickerError now (str "Failed to delete item") st, []) in
  match attempt with
  | Return (st', more) => (st', sent :: more)
  | Throw _ => (showTickerError now (str "Error deleting item") st, [sent])
  end.

(** The two notification channels and what each holds: its message and
    its pending expiries. *)
Inductive channel := TickerChannel | PortfolioChannel.

Definition channel_eqb (a b : channel) : bool :=
  match a, b with
  | TickerChannel, TickerChannel | PortfolioChannel, PortfolioChannel =>
      true
  | _, _ => false
  end.

Definition cleared_by (cb : callback) : channel :=
  match cb with
  | ClearTickerError => TickerChannel
  | ClearPortfolioError => PortfolioChannel
  end.

Definition message (c : channel) (st : state) : jstring :=
  match c with
  | TickerChannel => tickerError st
  | PortfolioChannel => portfolioError st
  end.

Definition pending (c : channel) (st : state) : list Z :=
  map fst
    (filter (fun timer => channel_eqb (cleared_by (snd timer)) c)
       (timers st)).

(** What the page can do: its five handlers and its timer callbacks. *)
Inductive operation :=
  | FetchItems
  | FetchPortfolioValue
  | TickerSubmit
  | PortfolioSubmit
  | Delete (id : value)
  | Run (cb : callback).

(** The channel an operation reports to. *)
Definition channel_of (op : operation) : channel :=
  match op with
  | FetchItems | TickerSubmit | Delete _ => TickerChannel
  | FetchPortfolioValue | PortfolioSubmit => PortfolioChannel
  | Run cb => cleared_by cb
  end.

Definition perform (now : Z) (op : operation) (st : state) : state :=
  match op with
  | FetchItems => fst (fetchItems now st)
  | FetchPortfolioValue => fst (fetchPortfolioValue now st)
  | TickerSubmit => fst (handleTickerSubmit now st)
  | PortfolioSubmit => fst (handlePortfolioSubmit now st)
  | Delete id => fst (handleDelete id now st)
  | Run cb => run cb st
  end.

(** Whether the DELETE call came back with [res.ok]. *)
Definition deleted (id : value) : bool :=
  match delete_item server id with
  | Return res => ok res
  | Throw _ => false
  end.

End Handlers.

End Home.

(** ** Servers and states for the examples *)

Module Scenario.
Import Js.

(** An engine with V8's TypeError message. No example prints a number. *)
Definition v8 : Engine := {|
  number_to_string := fun _ => str "NaN";
  null_property_message := fun k =>
    str "Cannot read properties of null (reading '" ++ k ++ str "')";
  primitive_message := str "Cannot convert object to primitive value"
|}.

Definition success {A} (a : A) : result (response A) :=
  Return {| ok := true; json := Return a |}.

Definition rejected (status_body : value) : result (response value) :=
  Return {| ok := false; json := Return status_body |}.

(** A server that cannot be reached. *)
Definition unreachable : remote :=
  {| get_items := Throw (str "Failed to fetch");
     post_items := fun _ => Throw (str "Failed to fetch");
     delete_item := fun _ => Throw (str "Failed to fetch");
     get_portfolio := Throw (str "Failed to fetch");
     post_portfolio := fun _ => Throw (str "Failed to fetch");
     post_calculate := fun _ _ => Throw (str "Failed to fetch") |}.

Definition aapl : item :=
  {| id := VNum (of_Z 1); ticker := VStr (str "AAPL") |}.
Definition msft : item :=
  {| id := VNum (of_Z 2); ticker := VStr (str "MSFT") |}.

Definition num (s : string) : value := VNum (Number (str s)).

(** The allocation of the spec's example. *)
Definition allocation : value :=
  VObj
    [(str "Weights",
      VObj [(str "AAPL", num "0.6"); (str "MSFT", num "0.4")]);
     (str "Shares to Purchase",
      VObj [(str "AAPL", num "10"); (str "MSFT", num "5")]);
     (str "Expected Performance",
      VObj [(str "Expected Annual Return", num "0.12");
            (str "Annual Volatility", num "0.2");
            (str "Sharpe Ratio", num "0.6")]);
     (str "Remaining Budget", num "123.45")].

(** A server whose list is empty, that stores any budget, computes the
    allocation above, and knows no item to delete. *)
Definition empty_list : remote :=
  {| get_items := success [];
     post_items := fun _ => success VNull;
     delete_item := fun _ =>
       rejected (VObj [(str "error", VStr (str "Item not found"))]);
     get_portfolio := success (VObj [(str "portfolio_value", num "0")]);
     post_portfolio := fun _ => success VNull;
     post_calculate := fun _ _ => success allocation |}.

(** A server that refuses to compute, with a message. *)
Definition refusing : remote :=
  {| get_items := success [aapl; msft];
     post_items := fun _ => success VNull;
     delete_item := fun _ => success VNull;
     get_portfolio := success (VObj [(str "portfolio_value", num "-5")]);
     post_portfolio := fun _ => success VNull;
     post_calculate := fun _ _ =>
       rejected (VObj [(str "error", VStr (str "Not enough data"))]) |}.

Definition configured : Portfolio.state :=
  Portfolio.setItems [aapl; msft]
    (Portfolio.setPortfolioValue (num "10000") Portfolio.initial).

Definition listing : Home.state := Home.setItems [aapl] Home.initial.

End Scenario.

(** ** The pattern of [validateStockTicker], as a regular expression *)

Module Pattern.
Import Js.

(** The constructs the pattern uses: a character class given by a range,
    and a bounded repetition. *)
Inductive regex :=
  | Range (lo hi : N)
  | Repeat (r : regex) (least most : nat).

(** [matches r s]: the whole of [s] is matched by [r]. *)
Inductive matches : regex -> jstring -> Prop :=
  | MatchRange lo hi c :
      (lo <= c)%N -> (c <= hi)%N -> matches (Range lo hi) [c]
  | MatchRepeat r least most parts :
      (least <= List.length parts)%nat ->
      (List.length parts <= most)%nat ->
      Forall (matches r) parts ->
      matches (Repeat r least most) (List.concat parts).

(** [/^[A-Z]{1,5}$/]: between [^] and [$] the pattern has to match the
    whole string. *)
Definition tickerPattern : regex := Repeat (Range 65 90) 1 5.

End Pattern.

(** ** Answers of the server, and sessions of the two pages *)

Module Session.
Import Js.

(** The body of an answer that came back with [res.ok] and could be
    read. *)
Definition body {A} (answer : result (response A)) : option A :=
  match answer with
  | Return {| ok := true; json := Return a |} => Some a
  | _ => None
  end.

(** Whether an answer came back with [res.ok]. *)
Definition accepted {A} (answer : result (response A)) : bool :=
  match answer with
  | Return res => ok res
  | Throw _ => false
  end.

(** What [JSON.stringify] puts on the wire for a number: the number when
    it is finite, [null] for the infinities and NaN. *)
Definition stringified (x : number) : value :=
  if isFinite x then VNum x else VNull.

(** An event of a page, with the time at which it happens. *)
Record timed (event : Type) := {
  at_time : Z;
  happens : event
}.
Arguments at_time {event} t.
Arguments happens {event} t.

(** The events of the allocation page. A handler runs up to its first
    [await] when it is called; what follows the [await] runs when the
    request settles, with the answer, on the state the page has then.
    The two loads of [useEffect] change nothing before their request
    settles. *)
Inductive portfolio_event :=
  | PortfolioValueSettled (answer : result (response value))
  | ItemsSettled (answer : result (response (list item)))
  | CalculatePressed
  | CalculateSettled (answer : result (response value)).

(** The events of the watch-list page. The text of [TickerTyped] is what
    [onChange] hands to [setTickerInput], that is
    [e.target.value.toUpperCase()]; the text of [BudgetSettled] is the
    [portfolioValue] the handler was called with. *)
Inductive home_event :=
  | TickerTyped (text : jstring)
  | BudgetTyped (text : jstring)
  | LoadedItems (answer : result (response (list item)))
  | LoadedPortfolioValue (answer : result (response value))
  | TickerSubmitted
  | AddSettled (answer : result (response value))
  | PortfolioSubmitted
  | BudgetSettled (typed : jstring) (answer : result (response value))
  | DeletePressed (id : value)
  | DeleteSettled (answer : result (response value)).

Section Runs.
Context {engine : Engine}.

(** The [portfolio_value] read from the answer to GET /portfolio, when
    the answer is a success and the read does not throw. *)
Definition fetched_value (server : remote) : option value :=
  match body (get_portfolio server) with
  | Some data =>
      match get data (str "portfolio_value") with
      | Return v => Some v
      | Throw _ => None
      end
  | None => None
  end.

(** [fetchPortfolioValue] of [portfolio.js], from its [await fetch]
    on. *)
Definition portfolioValue_settled
  (answer : result (response value)) (now : Z) (st : Portfolio.state)
  : Portfolio.state :=
  let attempt :=
    res <- answer ;;
    if negb (ok res) then Throw (str "Network response was not ok")
    else
      data <- json res ;;
      v <- get data (str "portfolio_value") ;;
      Return (Portfolio.setPortfolioValue v st) in
  match attempt with
  | Return st' => st'
  | Throw _ =>
      Portfolio.showError now (str "Error fetching portfolio value") st
  end.

(** [fetchItems] of [portfolio.js], from its [await fetch] on. *)
Definition items_settled
  (answer : result (response (list item))) (now : Z)
  (st : Portfolio.state) : Portfolio.state :=
  let attempt :=
    res <- answer ;;
    if negb (ok res) then Throw (str "Network response was not ok")
    else
      data <- json res ;;
      Return (Portfolio.setItems data st) in
  match attempt with
  | Return st' => st'
  | Throw _ => Portfolio.showError now (str "Error fetching items") st
  end.

(** [handleCalculate] up to its [await fetch]: the check, and the
    request sent when it passes. *)
Definition calculate_pressed (now : Z) (st : Portfolio.state)
  : Portfolio.state * list request :=
  if is_null (Portfolio.portfolioValue st)
     || (List.length (Portfolio.items st) =? 0)%nat
  then
    (Portfolio.showError now
       (str "Ensure portfolio value and stock tickers are set.") st,
     [])
  else
    (st,
     [PostCalculate (Portfolio.portfolioValue st)
        (map ticker (Portfolio.items st))]).

(** [handleCalculate] from its [await fetch] on. *)
Definition calculate_settled
  (answer : result (response value)) (now : Z) (st : Portfolio.state)
  : Portfolio.state :=
  let attempt :=
    res <- answer ;;
    if negb (ok res) then
      errorData <- json res ;;
      e <- get errorData (str "error") ;;
      message <-
        error_message
          (or_else e (VStr (str "Failed to calculate portfolio"))) ;;
      Throw message
    else
      data <- json res ;;
      Return (Portfolio.setAllocationResults data st) in
  match attempt with
  | Return st' => st'
  | Throw message => Portfolio.showError now message st
  end.

Definition portfolio_step
  (now : Z) (event : portfolio_event) (st : Portfolio.state)
  : Portfolio.state :=
  match event with
  | PortfolioValueSettled answer => portfolioValue_settled answer now st
  | ItemsSettled answer => items_settled answer now st
  | CalculatePressed => fst (calculate_pressed now st)
  | CalculateSettled answer => calculate_settled answer now st
  end.

(** A run of the allocation page: before each event the event loop has
    run the timers due. A run does not check that a settlement answers
    a request sent before: it has the behaviours of the page, and
    more. *)
Fixpoint portfolio_run
  (events : list (timed portfolio_event)) (st : Portfolio.state)
  : Portfolio.state :=
  match events with
  | [] => st
  | e :: rest =>
      portfolio_run rest
        (portfolio_step (at_time e) (happens e)
           (Portfolio.elapse (at_time e) st))
  end.

(** [fetchItems] of [index.js], from its [await fetch] on. *)
Definition loaded_items
  (answer : result (response (list item))) (now : Z) (st : Home.state)
  : Home.state :=
  let attempt :=
    res <- answer ;;
    if negb (ok res) then Throw (str "Network response was not ok")
    else
      data <- json res ;;
      Return (Home.setItems data st) in
  match attempt with
  | Return st' => st'
  | Throw _ => Home.showTickerError now (str "Error fetching items") st
  end.

(** [fetchPortfolioValue] of [index.js], from its [await fetch] on. *)
Definition loaded_portfolioValue
  (answer : result (response value)) (now : Z) (st : Home.state)
  : Home.state :=
  let attempt :=
    res <- answer ;;
    if negb (ok res) then Throw (str "Network response was not ok")
    else
      data <- json res ;;
      v <- get data (str "portfolio_value") ;;
      Return (Home.setDisplayedPortfolioValue v st) in
  match attempt with
  | Return st' => st'
  | Throw _ =>
      Home.showPortfolioError now (str "Error fetching portfolio value") st
  end.

(** [handleTickerSubmit] up to its [await fetch]. *)
Definition ticker_submitted (now : Z) (st : Home.state)
  : Home.state * list request :=
  if negb (validateStockTicker (Home.tickerInput st)) then
    (Home.showTickerError now
       (str "Must put in a valid stock ticker (1-5 uppercase letters)") st,
     [])
  else (st, [PostItems (Home.tickerInput st)]).

(** [handleTickerSubmit] from its [await fetch] on, up to the call of
    [fetchItems]: the state, and whether [fetchItems] was called. *)
Definition add_settled
  (answer : result (response value)) (now : Z) (st : Home.state)
  : Home.state * bool :=
  let attempt :=
    res <- answer ;;
    if ok res then Return (Home.setTickerInput [] st, true)
    else
      errorData <- json res ;;
      Return (Home.showTickerError now (str "Failed to add item") st,
              false) in
  match attempt with
  | Return out => out
  | Throw _ =>
      (Home.showTickerError now (str "Error adding item") st, false)
  end.

(** [handlePortfolioSubmit] up to its [await fetch]. *)
Definition portfolio_submitted (now : Z) (st : Home.state)
  : Home.state * list request :=
  if negb (validatePositiveNumber (Home.portfolioValue st)) then
    (Home.showPortfolioError now
       (str "Portfolio value must be a positive number") st,
     [])
  else (st, [PostPortfolio (Number (Home.portfolioValue st))]).

(** [handlePortfolioSubmit] from its [await fetch] on; [typed] is the
    [portfolioValue] of the render the handler belongs to. *)
Definition budget_settled
  (typed : jstring) (answer : result (response value)) (now : Z)
  (st : Home.state) : Home.state :=
  let attempt :=
    res <- answer ;;
    if ok res then
      Return
        (Home.setPortfolioValue []
           (Home.setDisplayedPortfolioValue (VNum (Number typed)) st))
    else
      errorData <- json res ;;
      Return
        (Home.showPortfolioError now (str "Failed to set portfolio value")
           st) in
  match attempt with
  | Return st' => st'
  | Throw _ =>
      Home.showPortfolioError now (str "Error setting portfolio value") st
  end.

(** [handleDelete] from its [await fetch] on, up to the call of
    [fetchItems]: the state, and whether [fetchItems] was called. *)
Definition delete_settled
  (answer : result (response value)) (now : Z) (st : Home.state)
  : Home.state * bool :=
  let attempt :=
    res <- answer ;;
    if ok res then Return (st, true)
    else
      errorData <- json res ;;
      Return (Home.showTickerError now (str "Failed to delete item") st,
              false) in
  match attempt with
  | Return out => out
  | Throw _ =>
      (Home.showTickerError now (str "Error deleting item") st, false)
  end.

Definition home_step (now : Z) (event : home_event) (st : Home.state)
  : Home.state :=
  match event with
  | TickerTyped text => Home.setTickerInput text st
  | BudgetTyped text => Home.setPortfolioValue text st
  | LoadedItems answer => loaded_items answer now st
  | LoadedPortfolioValue answer => loaded_portfolioValue answer now st
  | TickerSubmitted => fst (ticker_submitted now st)
  | AddSettled answer => fst (add_settled answer now st)
  | PortfolioSubmitted => fst (portfolio_submitted now st)
  | BudgetSettled typed answer => budget_settled typed answer now st
  | DeletePressed _ => st
  | DeleteSettled answer => fst (delete_settled answer now st)
  end.

(** A run of the watch-list page, as for the allocation page. *)
Fixpoint home_run (events : list (timed home_event)) (st : Home.state)
  : Home.state :=
  match events with
  | [] => st
  | e :: rest =>
      home_run rest
        (home_step (at_time e) (happens e) (Home.elapse (at_time e) st))
  end.

End Runs.

(** No timer is due later than [T + 2000], and a message displayed has
    a timer pending. *)
Definition armed (T : Z) (st : Portfolio.state) : Prop :=
  Forall (fun due => due <= T + 2000) (Portfolio.timers st) /\
  (Portfolio.errorMessage st <> [] -> Portfolio.timers st <> []).

(** The same for one channel of the watch-list page. *)
Definition channel_armed (T : Z) (c : Home.channel) (st : Home.state)
  : Prop :=
  Forall (fun due => due <= T + 2000) (Home.pending c st) /\
  (Home.message c st <> [] -> Home.pending c st <> []).

End Session.

(** ** More servers for the examples *)

Module Cases.
Import Js.

(** [server], except for its answer to GET /portfolio. *)
Definition with_portfolio
  (answer : result (response value)) (server : remote) : remote :=
  {| get_items := get_items server;
     post_items := post_items server;
     delete_item := delete_item server;
     get_portfolio := answer;
     post_portfolio := post_portfolio server;
     post_calculate := post_calculate server |}.

(** [server], except for its answer to GET /items. *)
Definition with_items
  (answer : result (response (list item))) (server : remote) : remote :=
  {| get_items := answer;
     post_items := post_items server;
     delete_item := delete_item server;
     get_portfolio := get_portfolio server;
     post_portfolio := post_portfolio server;
     post_calculate := post_calculate server |}.

(** A server that answers every request with status 500 and a body
    that is not JSON. *)
Definition broken : remote :=
  let failing {A} : result (response A) :=
    Return {| ok := false; json := Throw (str "Unexpected token <") |} in
  {| get_items := failing;
     post_items := fun _ => failing;
     delete_item := fun _ => failing;
     get_portfolio := failing;
     post_portfolio := fun _ => failing;
     post_calculate := fun _ _ => failing |}.

End Cases.

(** ** The validators *)

Import Js.

Lemma Number_examples :
  Number (str "1") = of_Z 1 /\
  Number (str "1000000") = of_Z 1000000 /\
  Number (str "500") = of_Z 500 /\
  Number (str "0") = S754_zero false /\
  Number (str "") = S754_zero false /\
  Number (str "-5") = of_Z (-5) /\
  Number (str "abc") = S754_nan /\
  Number (str "NaN") = S754_nan /\
  Number (str "0.01") = S754_finite false 5764607523034235 (-59) /\
  Number (str "Infinity") = S754_infinity false /\
  Number (str "1e400") = S754_infinity false /\
  Number (str "1e-400") = S754_zero false.
Proof. repeat split; vm_compute; reflexivity. Qed.

Lemma validatePositiveNumber_examples :
  map validatePositiveNumber [str "1"; str "0.01"; str "1000000"]
  = [true; true; true] /\
  map validatePositiveNumber
    [str "0"; str "-5"; str ""; str "abc"; str "NaN"; str "-Infinity"]
  = [false; false; false; false; false; false].
Proof. split; vm_compute; reflexivity. Qed.

Lemma validateStockTicker_examples :
  map validateStockTicker [str "AAPL"; str "A"; str "ABCDE"]
  = [true; true; true] /\
  map validateStockTicker
    [str ""; str "abcd"; str "ABCDEF"; str "AB1"; str "AB-C"]
  = [false; false; false; false; false].
Proof. split; vm_compute; reflexivity. Qed.

(** C3, as stated, fails: [validatePositiveNumber("Infinity")] is true
    although [Number("Infinity")] is not a finite number. *)
Lemma validatePositiveNumber_accepts_Infinity :
  ~ (validatePositiveNumber (str "Infinity") = true <->
     isFinite (Number (str "Infinity")) = true /\
     greater_than (Number (str "Infinity")) (S754_zero false) = true).
Proof.
  intros [accepted _].
  assert (yes : validatePositiveNumber (str "Infinity") = true)
    by (vm_compute; reflexivity).
  destruct (accepted yes) as [finite _].
  vm_compute in finite. discriminate finite.
Qed.

(** C3, amended: [validatePositiveNumber(s)] is true exactly when
    [Number(s)] is a number greater than zero, that is a positive finite
    double or [+Infinity]; it is false when [Number(s)] is NaN, a zero,
    negative or [-Infinity]. *)
Theorem validatePositiveNumber_spec (s : jstring) :
  validatePositiveNumber s = true <->
  Number s = S754_infinity false \/
  exists m e, Number s = S754_finite false m e.
Proof.
  unfold validatePositiveNumber, greater_than, less_than, SFltb.
  destruct (Number s) as [z | [|] | | [|] m e]; simpl; split;
    try discriminate; try reflexivity; intros H.
  - destruct H as [H | (m & e & H)]; discriminate H.
  - destruct H as [H | (m & e & H)]; discriminate H.
  - now left.
  - destruct H as [H | (m & e & H)]; discriminate H.
  - destruct H as [H | (m' & e' & H)]; discriminate H.
  - right. now exists m, e.
Qed.

(** ** Notifications and their timers *)

Lemma elapse_fields (t : Z) (st : Portfolio.state) :
  Portfolio.portfolioValue (Portfolio.elapse t st)
  = Portfolio.portfolioValue st /\
  Portfolio.items (Portfolio.elapse t st) = Portfolio.items st /\
  Portfolio.allocationResults (Portfolio.elapse t st)
  = Portfolio.allocationResults st.
Proof.
  unfold Portfolio.elapse.
  destruct (existsb _ (Portfolio.timers st)); simpl; auto.
Qed.

Lemma none_due (t : Z) (l : list Z) :
  Forall (fun due => t < due) l ->
  existsb (fun due => due <=? t) l = false /\
  filter (fun due => t <? due) l = l.
Proof.
  induction 1 as [| due l later _ [none all]]; simpl; [now split |].
  rewrite none, all.
  destruct (Z.leb_spec due t); [lia |].
  destruct (Z.ltb_spec t due); [now split | lia].
Qed.

Lemma elapse_none_due (t : Z) (st : Portfolio.state) :
  Forall (fun due => t < due) (Portfolio.timers st) ->
  Portfolio.elapse t st = st.
Proof.
  intros later. unfold Portfolio.elapse.
  destruct (none_due t _ later) as [none all].
  rewrite none, all. destruct st; reflexivity.
Qed.

(** C1, as stated, fails. The items request fails at time 0 and shows
    its message; at time 500 Calculate is pressed with no budget and
    shows the next message; the timer of the first message is still
    pending and empties the display at time 2000, so the second message
    does not stay until 2500. *)
Lemma stale_timer_clears_newer_message :
  let s1 :=
    fst (Portfolio.fetchItems Scenario.unreachable 0 Portfolio.initial) in
  let s2 :=
    fst (Portfolio.handleCalculate (engine := Scenario.v8)
           Scenario.unreachable 500 (Portfolio.elapse 500 s1)) in
  ~ (forall t, 500 <= t < 2500 ->
       Portfolio.errorMessage (Portfolio.elapse t s2)
       = str "Ensure portfolio value and stock tickers are set.").
Proof.
  intros s1 s2 stays.
  specialize (stays 2000 ltac:(lia)).
  vm_compute in stays. discriminate stays.
Qed.

(** C1, amended: when a message M1 is shown at time T with no timer
    pending and a message M2 is shown at T+500, then from T+500 on the
    display holds M2 until T+2000 and is empty from T+2000 on: M1 is no
    longer displayed, but the timer started with M1 is not cancelled and
    clears M2 at T+2000; the timer started with M2 finds the display
    already empty at T+2500. *)
Theorem notification_replacement
  (T : Z) (M1 M2 : jstring) (st : Portfolio.state) :
  Portfolio.timers st = [] ->
  let s1 := Portfolio.showError T M1 st in
  let s2 :=
    Portfolio.showError (T + 500) M2 (Portfolio.elapse (T + 500) s1) in
  forall t, T + 500 <= t ->
    Portfolio.errorMessage (Portfolio.elapse t s2)
    = if t <? T + 2000 then M2 else [].
Proof.
  intros idle s1 s2 t after.
  assert (first : Portfolio.elapse (T + 500) s1 = s1).
  { apply elapse_none_due. subst s1. simpl. rewrite idle. simpl.
    constructor; [lia | constructor]. }
  subst s2. rewrite first. subst s1.
  unfold Portfolio.elapse, Portfolio.showError. simpl. rewrite idle. simpl.
  destruct (Z.ltb_spec t (T + 2000)) as [early | late].
  - destruct (Z.leb_spec (T + 2000) t); [lia |].
    destruct (Z.leb_spec (T + 500 + 2000) t); [lia |]. reflexivity.
  - destruct (Z.leb_spec (T + 2000) t); [| lia]. reflexivity.
Qed.

Lemma notification_replacement_witness :
  Portfolio.errorMessage
    (Portfolio.elapse 1999
       (Portfolio.showError 500 (str "second")
          (Portfolio.elapse 500
             (Portfolio.showError 0 (str "first") Portfolio.initial))))
  = str "second" /\
  Portfolio.errorMessage
    (Portfolio.elapse 2000
       (Portfolio.showError 500 (str "second")
          (Portfolio.elapse 500
             (Portfolio.showError 0 (str "first") Portfolio.initial))))
  = [].
Proof.
  split.
  - exact (notification_replacement 0 (str "first") (str "second")
             Portfolio.initial eq_refl 1999 ltac:(lia)).
  - exact (notification_replacement 0 (str "first") (str "second")
             Portfolio.initial eq_refl 2000 ltac:(lia)).
Defined.

(** ** The Calculate button of the allocation page *)

Section Calculate.
Context {engine : Engine}.
Variable server : remote.

Lemma guard_passes (st : Portfolio.state) :
  Portfolio.portfolioValue st <> VNull ->
  Portfolio.items st <> [] ->
  is_null (Portfolio.portfolioValue st)
  || (List.length (Portfolio.items st) =? 0)%nat = false.
Proof.
  intros budget stocks.
  destruct (Portfolio.portfolioValue st); try reflexivity;
    try (destruct (Portfolio.items st); [congruence | reflexivity]).
  congruence.
Qed.

Lemma error_message_truthy (v : value) :
  truthy v = true -> error_message v = to_string v.
Proof. destruct v; [discriminate | reflexivity ..]. Qed.

(** Every answer of the server is a success or one of the failures. *)
Lemma success_or_failure (answer : result (response value)) :
  (exists data, answer = Return {| ok := true; json := Return data |})
  \/ exists m, Portfolio.failure answer m.
Proof.
  destruct answer as [[[|] [data | m]] | m].
  - left. now exists data.
  - right. exists m. constructor.
  - right. destruct (get data (str "error")) as [e | m] eqn:read.
    + destruct (truthy e) eqn:given.
      * destruct data; simpl in read; try (inversion read; subst e;
          discriminate given).
        assert (found : lookup (str "error") properties = e)
          by now inversion read.
        destruct (to_string e) as [m | m] eqn:text; exists m.
        -- eapply Portfolio.ServerOther; eassumption.
        -- eapply Portfolio.ServerUnprintable; eassumption.
      * eexists. eapply Portfolio.NoServerMessage; eassumption.
    + exists m. now apply Portfolio.NullBody.
  - right. exists m. constructor.
  - right. exists m. constructor.
Qed.

(** C5: pressed with the budget [null] or with no items, Calculate
    sends no request, shows "Ensure portfolio value and stock tickers
    are set." with its 2000 ms timer, and leaves the items, the budget
    and the allocation results as they were. *)
Theorem handleCalculate_precondition (now : Z) (st : Portfolio.state) :
  Portfolio.portfolioValue st = VNull \/ Portfolio.items st = [] ->
  let out := Portfolio.handleCalculate server now st in
  snd out = [] /\
  Portfolio.errorMessage (fst out)
  = str "Ensure portfolio value and stock tickers are set." /\
  Portfolio.timers (fst out) = Portfolio.timers st ++ [now + 2000] /\
  Portfolio.items (fst out) = Portfolio.items st /\
  Portfolio.portfolioValue (fst out) = Portfolio.portfolioValue st /\
  Portfolio.allocationResults (fst out) = Portfolio.allocationResults st.
Proof.
  intros unset. unfold Portfolio.handleCalculate.
  assert (guard : is_null (Portfolio.portfolioValue st)
                  || (List.length (Portfolio.items st) =? 0)%nat = true).
  { destruct unset as [absent | empty].
    - rewrite absent. reflexivity.
    - rewrite empty. apply orb_true_r. }
  rewrite guard. simpl. repeat split; reflexivity.
Qed.

(** C6: with a budget and items, when the compute call answers with
    [res.ok] and a body, the allocation results become that body as it
    is; one request was sent, and no notification is shown. *)
Theorem handleCalculate_success
  (now : Z) (st : Portfolio.state) (data : value) :
  Portfolio.portfolioValue st <> VNull ->
  Portfolio.items st <> [] ->
  post_calculate server (Portfolio.portfolioValue st)
    (map ticker (Portfolio.items st))
  = Return {| ok := true; json := Return data |} ->
  let out := Portfolio.handleCalculate server now st in
  Portfolio.allocationResults (fst out) = data /\
  snd out
  = [PostCalculate (Portfolio.portfolioValue st)
       (map ticker (Portfolio.items st))] /\
  Portfolio.errorMessage (fst out) = Portfolio.errorMessage st /\
  Portfolio.timers (fst out) = Portfolio.timers st /\
  Portfolio.items (fst out) = Portfolio.items st /\
  Portfolio.portfolioValue (fst out) = Portfolio.portfolioValue st.
Proof.
  intros budget stocks answer. unfold Portfolio.handleCalculate.
  rewrite (guard_passes st budget stocks), answer. simpl.
  repeat split; reflexivity.
Qed.

(** C7, amended: with a budget and items, when the compute call fails,
    the notification shows the message of the error thrown: the text of
    the server's [error] when the answer is not ok and its body carries
    a truthy one, "Failed to calculate portfolio" when the answer is not
    ok and its body carries none, and the runtime's own text when
    [fetch] or [res.json()] throws, when the body is [null], or when the
    [error] cannot be made into a string. The allocation results stay
    what they were. *)
Theorem handleCalculate_failure
  (now : Z) (st : Portfolio.state) (m : jstring) :
  Portfolio.portfolioValue st <> VNull ->
  Portfolio.items st <> [] ->
  Portfolio.failure
    (post_calculate server (Portfolio.portfolioValue st)
       (map ticker (Portfolio.items st))) m ->
  let out := Portfolio.handleCalculate server now st in
  Portfolio.errorMessage (fst out) = m /\
  Portfolio.timers (fst out) = Portfolio.timers st ++ [now + 2000] /\
  Portfolio.allocationResults (fst out) = Portfolio.allocationResults st /\
  Portfolio.items (fst out) = Portfolio.items st /\
  Portfolio.portfolioValue (fst out) = Portfolio.portfolioValue st /\
  snd out
  = [PostCalculate (Portfolio.portfolioValue st)
       (map ticker (Portfolio.items st))].
Proof.
  intros budget stocks failed. unfold Portfolio.handleCalculate.
  rewrite (guard_passes st budget stocks).
  inversion failed as
    [m' answer | b m' answer | properties s found nonempty answer
     | properties e m' found given text answer
     | properties e m' found given text answer
     | errorData e read absent answer
     | errorData m' read answer]; subst; simpl.
  - repeat split; reflexivity.
  - destruct b; simpl; repeat split; reflexivity.
  - rewrite found. unfold or_else. simpl.
    destruct m as [| c m]; [congruence |]. simpl. repeat split; reflexivity.
  - unfold or_else. rewrite given.
    rewrite (error_message_truthy _ given), text.
    simpl. repeat split; reflexivity.
  - unfold or_else. rewrite given.
    rewrite (error_message_truthy _ given), text.
    simpl. repeat split; reflexivity.
  - rewrite read. simpl. unfold or_else. rewrite absent.
    simpl. repeat split; reflexivity.
  - rewrite read. simpl. repeat split; reflexivity.
Qed.

(** C10: only [null] counts as an absent budget. Whatever other value
    GET /portfolio returned as [portfolio_value] (zero and negative
    numbers included) becomes the budget, passes the check of Calculate
    when there are items, and is sent as the budget of the compute
    call. *)
Theorem handleCalculate_sends_fetched_budget
  (now now' : Z) (st : Portfolio.state)
  (properties : list (jstring * value)) (v : value) :
  get_portfolio server
  = Return {| ok := true; json := Return (VObj properties) |} ->
  lookup (str "portfolio_value") properties = v ->
  v <> VNull ->
  Portfolio.items st <> [] ->
  let st' := fst (Portfolio.fetchPortfolioValue server now st) in
  Portfolio.portfolioValue st' = v /\
  snd (Portfolio.handleCalculate server now' st')
  = [PostCalculate v (map ticker (Portfolio.items st))].
Proof.
  intros fetched found present stocks st'.
  assert (stored : st' = Portfolio.setPortfolioValue v st).
  { subst st'. unfold Portfolio.fetchPortfolioValue.
    rewrite fetched. simpl. rewrite found. reflexivity. }
  rewrite stored. split; [reflexivity |].
  unfold Portfolio.handleCalculate.
  rewrite guard_passes by (simpl; assumption). reflexivity.
Qed.

End Calculate.

Lemma handleCalculate_precondition_witness :
  let out :=
    Portfolio.handleCalculate (engine := Scenario.v8)
      Scenario.unreachable 0 Portfolio.initial in
  snd out = [] /\
  Portfolio.errorMessage (fst out)
  = str "Ensure portfolio value and stock tickers are set." /\
  Portfolio.timers (fst out) = [2000] /\
  Portfolio.items (fst out) = [] /\
  Portfolio.portfolioValue (fst out) = VNull /\
  Portfolio.allocationResults (fst out) = VNull.
Proof.
  exact (handleCalculate_precondition (engine := Scenario.v8)
           Scenario.unreachable 0 Portfolio.initial (or_introl eq_refl)).
Defined.

Lemma handleCalculate_success_witness :
  Portfolio.allocationResults
    (fst (Portfolio.handleCalculate (engine := Scenario.v8)
            Scenario.empty_list 0 Scenario.configured))
  = Scenario.allocation.
Proof.
  refine (proj1 (handleCalculate_success (engine := Scenario.v8)
                   Scenario.empty_list 0 Scenario.configured
                   Scenario.allocation _ _ _)).
  - discriminate.
  - discriminate.
  - reflexivity.
Defined.

Lemma handleCalculate_failure_witness :
  let out :=
    Portfolio.handleCalculate (engine := Scenario.v8)
      Scenario.refusing 0
      (Portfolio.setAllocationResults Scenario.allocation
         Scenario.configured) in
  Portfolio.errorMessage (fst out) = str "Not enough data" /\
  Portfolio.allocationResults (fst out) = Scenario.allocation.
Proof.
  refine (let proved :=
            handleCalculate_failure (engine := Scenario.v8)
              Scenario.refusing 0
              (Portfolio.setAllocationResults Scenario.allocation
                 Scenario.configured)
              (str "Not enough data") _ _ _ in
          conj (proj1 proved) (proj1 (proj2 (proj2 proved)))).
  - discriminate.
  - discriminate.
  - apply Portfolio.ServerMessage; [reflexivity | discriminate].
Defined.

Lemma handleCalculate_sends_fetched_budget_witness :
  let st' :=
    fst (Portfolio.fetchPortfolioValue (engine := Scenario.v8)
           Scenario.empty_list 0
           (Portfolio.setItems [Scenario.aapl] Portfolio.initial)) in
  Portfolio.portfolioValue st' = VNum (S754_zero false) /\
  snd (Portfolio.handleCalculate (engine := Scenario.v8)
         Scenario.empty_list 10 st')
  = [PostCalculate (VNum (S754_zero false)) [VStr (str "AAPL")]].
Proof.
  refine (handleCalculate_sends_fetched_budget (engine := Scenario.v8)
            Scenario.empty_list 0 10
            (Portfolio.setItems [Scenario.aapl] Portfolio.initial)
            [(str "portfolio_value", Scenario.num "0")]
            (VNum (S754_zero false)) _ _ _ _).
  - reflexivity.
  - reflexivity.
  - discriminate.
  - discriminate.
Defined.

(** A negative budget fetched from the server is sent all the same. *)
Lemma negative_budget_is_sent :
  let st' :=
    fst (Portfolio.fetchPortfolioValue (engine := Scenario.v8)
           Scenario.refusing 0
           (Portfolio.setItems [Scenario.aapl] Portfolio.initial)) in
  snd (Portfolio.handleCalculate (engine := Scenario.v8)
         Scenario.refusing 10 st')
  = [PostCalculate (VNum (of_Z (-5))) [VStr (str "AAPL")]].
Proof. vm_compute. reflexivity. Qed.

(** ** The forms of the watch-list page *)

Section Forms.
Variable server : remote.

(** C8: when the ticker typed does not pass [validateStockTicker], the
    submit handler shows "Must put in a valid stock ticker (1-5
    uppercase letters)" on the ticker channel, with its timer, and sends
    no request. *)
Theorem handleTickerSubmit_invalid (now : Z) (st : Home.state) :
  validateStockTicker (Home.tickerInput st) = false ->
  let out := Home.handleTickerSubmit server now st in
  snd out = [] /\
  Home.tickerError (fst out)
  = str "Must put in a valid stock ticker (1-5 uppercase letters)" /\
  Home.timers (fst out)
  = Home.timers st ++ [(now + 2000, Home.ClearTickerError)] /\
  Home.items (fst out) = Home.items st /\
  Home.tickerInput (fst out) = Home.tickerInput st /\
  Home.portfolioError (fst out) = Home.portfolioError st.
Proof.
  intros invalid. unfold Home.handleTickerSubmit. rewrite invalid. simpl.
  repeat split; reflexivity.
Qed.

(** C9: when the text typed passes [validatePositiveNumber] and the
    server accepts it, the budget shown becomes the number
    [Number(text)], the input field is emptied, and the only request
    sent is the POST: the budget is not fetched again. *)
Theorem handlePortfolioSubmit_success
  (now : Z) (st : Home.state) (res : response value) :
  validatePositiveNumber (Home.portfolioValue st) = true ->
  post_portfolio server (Number (Home.portfolioValue st)) = Return res ->
  ok res = true ->
  let out := Home.handlePortfolioSubmit server now st in
  Home.displayedPortfolioValue (fst out)
  = VNum (Number (Home.portfolioValue st)) /\
  Home.portfolioValue (fst out) = [] /\
  snd out = [PostPortfolio (Number (Home.portfolioValue st))] /\
  Home.portfolioError (fst out) = Home.portfolioError st /\
  Home.timers (fst out) = Home.timers st.
Proof.
  intros valid answer accepted. unfold Home.handlePortfolioSubmit.
  rewrite valid, answer. simpl. rewrite accepted. simpl.
  repeat split; reflexivity.
Qed.

(** C2, amended: [handleDelete(id)] fetches the list again only after a
    delete call that came back with [res.ok]; the items are then the
    list the server returns. After a delete call that failed it shows
    "Failed to delete item" or "Error deleting item" on the ticker
    channel, sends nothing more, and leaves the items as they were. *)
Theorem handleDelete_refetches_after_success
  (id : value) (now : Z) (st : Home.state) :
  let out := Home.handleDelete server id now st in
  if Home.deleted server id
  then
    snd out = [DeleteItem id; GetItems] /\
    forall l,
      get_items server = Return {| ok := true; json := Return l |} ->
      Home.items (fst out) = l
  else
    snd out = [DeleteItem id] /\
    Home.items (fst out) = Home.items st /\
    (Home.tickerError (fst out) = str "Failed to delete item" \/
     Home.tickerError (fst out) = str "Error deleting item") /\
    Home.timers (fst out)
    = Home.timers st ++ [(now + 2000, Home.ClearTickerError)].
Proof.
  unfold Home.handleDelete, Home.deleted.
  destruct (delete_item server id) as [[[|] body] | m]; simpl.
  - split; [reflexivity |]. intros l listed.
    unfold Home.fetchItems. rewrite listed. reflexivity.
  - destruct body as [errorData | m]; simpl;
      repeat split; auto.
  - repeat split; auto.
Qed.

End Forms.

Lemma handleTickerSubmit_invalid_witness :
  let out :=
    Home.handleTickerSubmit Scenario.empty_list 0
      (Home.setTickerInput (str "abcd") Home.initial) in
  snd out = [] /\
  Home.tickerError (fst out)
  = str "Must put in a valid stock ticker (1-5 uppercase letters)" /\
  Home.timers (fst out) = [(2000, Home.ClearTickerError)] /\
  Home.items (fst out) = [] /\
  Home.tickerInput (fst out) = str "abcd" /\
  Home.portfolioError (fst out) = [].
Proof.
  exact (handleTickerSubmit_invalid Scenario.empty_list 0
           (Home.setTickerInput (str "abcd") Home.initial) eq_refl).
Defined.

Lemma handlePortfolioSubmit_success_witness :
  let out :=
    Home.handlePortfolioSubmit Scenario.empty_list 0
      (Home.setPortfolioValue (str "500") Home.initial) in
  Home.displayedPortfolioValue (fst out) = VNum (Number (str "500")) /\
  Home.portfolioValue (fst out) = [] /\
  snd out = [PostPortfolio (Number (str "500"))].
Proof.
  refine (let proved :=
            handlePortfolioSubmit_success Scenario.empty_list 0
              (Home.setPortfolioValue (str "500") Home.initial)
              {| ok := true; json := Return VNull |} _ _ _ in
          conj (proj1 proved)
            (conj (proj1 (proj2 proved)) (proj1 (proj2 (proj2 proved))))).
  - vm_compute. reflexivity.
  - reflexivity.
  - reflexivity.
Defined.

(** The budget left by submitting "500" is the number 500. *)
Lemma submitted_500_is_a_number :
  Home.displayedPortfolioValue
    (fst (Home.handlePortfolioSubmit Scenario.empty_list 0
            (Home.setPortfolioValue (str "500") Home.initial)))
  = VNum (of_Z 500).
Proof. vm_compute. reflexivity. Qed.

(** C2, as stated, fails. The server no longer lists item 1 and rejects
    its deletion; [handleDelete] sends the DELETE and nothing else, and
    the page keeps the item the server does not list. *)
Lemma failed_delete_does_not_refetch :
  let out :=
    Home.handleDelete Scenario.empty_list (VNum (of_Z 1)) 0
      Scenario.listing in
  get_items Scenario.empty_list = Scenario.success [] /\
  ~ In GetItems (snd out) /\
  In Scenario.aapl (Home.items (fst out)).
Proof.
  split; [reflexivity |]. split.
  - simpl. intros [wrong | []]. discriminate wrong.
  - simpl. left. reflexivity.
Qed.

Lemma handleDelete_refetches_after_success_witness :
  let out :=
    Home.handleDelete Scenario.refusing (VNum (of_Z 1)) 0
      Scenario.listing in
  snd out = [DeleteItem (VNum (of_Z 1)); GetItems] /\
  Home.items (fst out) = [Scenario.aapl; Scenario.msft].
Proof.
  refine (let proved :=
            handleDelete_refetches_after_success Scenario.refusing
              (VNum (of_Z 1)) 0 Scenario.listing in
          conj (proj1 proved) (proj2 proved _ _)).
  reflexivity.
Defined.

(** ** The two notification channels of the watch-list page *)

Lemma pending_setTimeout
  (c : Home.channel) (cb : Home.callback) (now delay : Z)
  (st : Home.state) :
  Home.pending c (Home.setTimeout cb now delay st)
  = Home.pending c st
    ++ (if Home.channel_eqb (Home.cleared_by cb) c
        then [now + delay] else []).
Proof.
  unfold Home.pending, Home.setTimeout. simpl.
  rewrite filter_app, map_app. simpl.
  destruct (Home.channel_eqb (Home.cleared_by cb) c); reflexivity.
Qed.

Lemma showTickerError_frame (now : Z) (m : jstring) (st : Home.state) :
  Home.portfolioError (Home.showTickerError now m st)
  = Home.portfolioError st /\
  Home.pending Home.PortfolioChannel (Home.showTickerError now m st)
  = Home.pending Home.PortfolioChannel st.
Proof.
  unfold Home.showTickerError. rewrite pending_setTimeout. simpl.
  rewrite app_nil_r. split; reflexivity.
Qed.

Lemma showPortfolioError_frame (now : Z) (m : jstring) (st : Home.state) :
  Home.tickerError (Home.showPortfolioError now m st)
  = Home.tickerError st /\
  Home.pending Home.TickerChannel (Home.showPortfolioError now m st)
  = Home.pending Home.TickerChannel st.
Proof.
  unfold Home.showPortfolioError. rewrite pending_setTimeout. simpl.
  rewrite app_nil_r. split; reflexivity.
Qed.

Section Channels.
Context {engine : Engine}.
Variable server : remote.

Lemma fetchItems_frame (now : Z) (st : Home.state) :
  Home.portfolioError (fst (Home.fetchItems server now st))
  = Home.portfolioError st /\
  Home.pending Home.PortfolioChannel (fst (Home.fetchItems server now st))
  = Home.pending Home.PortfolioChannel st.
Proof.
  unfold Home.fetchItems.
  destruct (get_items server) as [[[|] [data | m]] | m]; simpl;
    try apply showTickerError_frame; split; reflexivity.
Qed.

(** C4, amended: on the watch-list page the ticker channel and the
    budget channel do not touch each other. Whatever that page does for
    one channel (a handler that may show an error on it, or the timer
    callback that clears it) leaves the message of the other channel and
    the pending expiries of the other channel as they were. The
    allocation page is not concerned: it has the one [errorMessage]. *)
Theorem channels_independent
  (now : Z) (op : Home.operation) (c : Home.channel) (st : Home.state) :
  Home.channel_of op <> c ->
  Home.message c (Home.perform server now op st) = Home.message c st /\
  Home.pending c (Home.perform server now op st) = Home.pending c st.
Proof.
  intros other.
  destruct op as [| | | | id | [|]], c; simpl in other;
    try congruence; clear other; simpl.
  - apply fetchItems_frame.
  - unfold Home.fetchPortfolioValue.
    destruct (get_portfolio server) as [[[|] [data | m]] | m]; simpl;
      try apply showPortfolioError_frame; try (split; reflexivity).
    destruct (get data (str "portfolio_value")); simpl;
      try apply showPortfolioError_frame; split; reflexivity.
  - unfold Home.handleTickerSubmit.
    destruct (validateStockTicker (Home.tickerInput st)); simpl;
      [| apply showTickerError_frame].
    destruct (post_items server (Home.tickerInput st))
      as [[[|] [data | m]] | m]; simpl;
      try apply showTickerError_frame;
      apply (fetchItems_frame now (Home.setTickerInput [] st)).
  - unfold Home.handlePortfolioSubmit.
    destruct (validatePositiveNumber (Home.portfolioValue st)); simpl;
      [| apply showPortfolioError_frame].
    destruct (post_portfolio server (Number (Home.portfolioValue st)))
      as [[[|] [data | m]] | m]; simpl;
      try apply showPortfolioError_frame; split; reflexivity.
  - unfold Home.handleDelete.
    destruct (delete_item server id) as [[[|] [data | m]] | m]; simpl;
      try apply showTickerError_frame; apply fetchItems_frame.
  - split; reflexivity.
  - split; reflexivity.
Qed.

End Channels.

Lemma channels_independent_witness :
  let st :=
    Home.showPortfolioError 0
      (str "Portfolio value must be a positive number") Scenario.listing in
  let st' :=
    Home.perform (engine := Scenario.v8) Scenario.empty_list 500
      (Home.Delete (VNum (of_Z 1))) st in
  Home.tickerError st' = str "Failed to delete item" /\
  Home.message Home.PortfolioChannel st'
  = str "Portfolio value must be a positive number" /\
  Home.pending Home.PortfolioChannel st' = [2000].
Proof.
  split; [reflexivity |].
  refine (channels_independent (engine := Scenario.v8)
            Scenario.empty_list 500 (Home.Delete (VNum (of_Z 1)))
            Home.PortfolioChannel
            (Home.showPortfolioError 0
               (str "Portfolio value must be a positive number")
               Scenario.listing) _).
  discriminate.
Defined.

(** Time passing treats each channel by its own timers alone: a channel
    is emptied when one of its own expiries is due, whatever the other
    channel has pending. *)
Lemma run_all (c : Home.channel) (l : list (Z * Home.callback))
  (s : Home.state) :
  let s' := fold_left (fun s timer => Home.run (snd timer) s) l s in
  Home.timers s' = Home.timers s /\
  Home.message c s'
  = if existsb
         (fun timer => Home.channel_eqb (Home.cleared_by (snd timer)) c) l
    then [] else Home.message c s.
Proof.
  revert s. induction l as [| [due cb] l IH]; intros s; simpl.
  - split; reflexivity.
  - destruct (IH (Home.run cb s)) as [same shown]. split.
    + rewrite same. destruct cb; reflexivity.
    + rewrite shown.
      destruct (existsb _ l); destruct cb, c; reflexivity.
Qed.

Lemma due_among_selected {A} (p : A -> bool) (q : Z -> bool)
  (l : list (Z * A)) :
  existsb (fun x => p (snd x)) (filter (fun x => q (fst x)) l)
  = existsb q (map fst (filter (fun x => p (snd x)) l)).
Proof.
  induction l as [| [due a] l IH]; simpl; [reflexivity |].
  destruct (q due) eqn:D, (p a) eqn:S; simpl;
    rewrite ?D, ?S; simpl; rewrite ?D, ?S, ?IH; reflexivity.
Qed.

Lemma later_among_selected {A} (p : A -> bool) (q : Z -> bool)
  (l : list (Z * A)) :
  map fst (filter (fun x => p (snd x)) (filter (fun x => q (fst x)) l))
  = filter q (map fst (filter (fun x => p (snd x)) l)).
Proof.
  induction l as [| [due a] l IH]; simpl; [reflexivity |].
  destruct (q due) eqn:D, (p a) eqn:S; simpl;
    rewrite ?D, ?S; simpl; rewrite ?D, ?S, ?IH; reflexivity.
Qed.

Lemma elapse_by_channel (t : Z) (c : Home.channel) (st : Home.state) :
  Home.message c (Home.elapse t st)
  = (if existsb (fun due => due <=? t) (Home.pending c st)
     then [] else Home.message c st) /\
  Home.pending c (Home.elapse t st)
  = filter (fun due => t <? due) (Home.pending c st).
Proof.
  unfold Home.elapse.
  destruct (run_all c
              (filter (fun timer => fst timer <=? t) (Home.timers st))
              (Home.setTimers
                 (filter (fun timer => t <? fst timer) (Home.timers st))
                 st)) as [same shown].
  split.
  - rewrite shown. unfold Home.pending.
    rewrite <- (due_among_selected
                  (fun cb => Home.channel_eqb (Home.cleared_by cb) c)
                  (fun due => due <=? t)).
    destruct c; reflexivity.
  - unfold Home.pending at 1. rewrite same.
    exact (later_among_selected
             (fun cb => Home.channel_eqb (Home.cleared_by cb) c)
             (fun due => t <? due) (Home.timers st)).
Qed.

(** The allocation page has a single channel, [errorMessage], for all of
    its handlers: there the error of the items request replaces the
    pending error of the budget request. *)
Lemma allocation_page_shares_errorMessage :
  let s1 :=
    fst (Portfolio.fetchPortfolioValue (engine := Scenario.v8)
           Scenario.unreachable 0 Portfolio.initial) in
  let s2 := fst (Portfolio.fetchItems Scenario.unreachable 100 s1) in
  Portfolio.errorMessage s1 = str "Error fetching portfolio value" /\
  Portfolio.errorMessage s2 = str "Error fetching items".
Proof. split; reflexivity. Qed.

(** The same replacement on the ticker channel of the watch-list page,
    whatever the budget channel has pending: the message shown at T+500
    is cleared at T+2000 by the timer of the message shown at T. *)
Lemma ticker_notification_replacement
  (T : Z) (M1 M2 : jstring) (st : Home.state) :
  Home.pending Home.TickerChannel st = [] ->
  let s1 := Home.showTickerError T M1 st in
  let s2 := Home.showTickerError (T + 500) M2 (Home.elapse (T + 500) s1) in
  forall t, T + 500 <= t ->
    Home.tickerError (Home.elapse t s2)
    = if t <? T + 2000 then M2 else [].
Proof.
  intros idle s1 s2 t after.
  destruct (elapse_by_channel t Home.TickerChannel s2) as [shown _].
  simpl in shown. rewrite shown. clear shown.
  assert (queue : Home.pending Home.TickerChannel s2
                  = [T + 2000; T + 500 + 2000]).
  { subst s2. unfold Home.showTickerError at 1.
    rewrite pending_setTimeout. simpl.
    replace (Home.pending Home.TickerChannel
               (Home.setTickerError M2 (Home.elapse (T + 500) s1)))
      with (Home.pending Home.TickerChannel (Home.elapse (T + 500) s1))
      by reflexivity.
    destruct (elapse_by_channel (T + 500) Home.TickerChannel s1)
      as [_ left]. rewrite left. subst s1.
    unfold Home.showTickerError. rewrite pending_setTimeout. simpl.
    replace (Home.pending Home.TickerChannel (Home.setTickerError M1 st))
      with (Home.pending Home.TickerChannel st) by reflexivity.
    rewrite idle. simpl.
    destruct (Z.ltb_spec (T + 500) (T + 2000)); [reflexivity | lia]. }
  rewrite queue. simpl.
  destruct (Z.ltb_spec t (T + 2000)).
  - destruct (Z.leb_spec (T + 2000) t); [lia |].
    destruct (Z.leb_spec (T + 500 + 2000) t); [lia |]. reflexivity.
  - destruct (Z.leb_spec (T + 2000) t); [| lia]. reflexivity.
Qed.

(** ** More on the validators *)

Lemma singletons (s : jstring) : List.concat (map (fun c => [c]) s) = s.
Proof. induction s as [| c s IH]; simpl; [| rewrite IH]; reflexivity. Qed.

Lemma range_parts (lo hi : N) (parts : list jstring) :
  Forall (Pattern.matches (Pattern.Range lo hi)) parts ->
  List.length (List.concat parts) = List.length parts /\
  forallb (fun c => (lo <=? c)%N && (c <=? hi)%N) (List.concat parts) = true.
Proof.
  induction 1 as [| part parts one _ [size inside]]; simpl;
    [split; reflexivity |].
  inversion one as [lo' hi' c low high |]; subst. simpl.
  rewrite size, inside.
  destruct (N.leb_spec lo c); [| lia]. destruct (N.leb_spec c hi); [| lia].
  split; reflexivity.
Qed.

(** X1: [validateStockTicker] decides the pattern it is written with:
    it is true exactly on the strings [/^[A-Z]{1,5}$/] matches. *)
Theorem validateStockTicker_matches_pattern (s : jstring) :
  validateStockTicker s = true <-> Pattern.matches Pattern.tickerPattern s.
Proof.
  unfold validateStockTicker, Pattern.tickerPattern. split.
  - intros accepted.
    apply andb_true_iff in accepted. destruct accepted as [bounds upper].
    apply andb_true_iff in bounds. destruct bounds as [least most].
    apply Nat.leb_le in least. apply Nat.leb_le in most.
    rewrite <- (singletons s).
    apply Pattern.MatchRepeat; rewrite ?length_map; try assumption.
    clear least most. induction s as [| c s IH]; simpl; [constructor |].
    simpl in upper. apply andb_true_iff in upper.
    destruct upper as [letter upper].
    apply andb_true_iff in letter. destruct letter as [low high].
    constructor; [| exact (IH upper)].
    constructor; [apply N.leb_le, low | apply N.leb_le, high].
  - intros matched.
    inversion matched as [| r least most parts low high each]; subst.
    destruct (range_parts 65 90 parts each) as [size inside].
    rewrite size, inside.
    apply Nat.leb_le in low. apply Nat.leb_le in high.
    rewrite low, high. reflexivity.
Qed.

Lemma skip_white_space_prefix (a r : jstring) :
  forallb is_white_space a = true ->
  skip_white_space (a ++ r) = skip_white_space r.
Proof.
  induction a as [| c a IH]; simpl; [reflexivity |].
  intros blank. apply andb_true_iff in blank. destruct blank as [one rest].
  rewrite one. exact (IH rest).
Qed.

Lemma skip_white_space_blank (s : jstring) :
  forallb is_white_space s = true <-> skip_white_space s = [].
Proof.
  induction s as [| c s IH]; simpl; [now split |].
  destruct (is_white_space c); simpl; [exact IH |].
  split; discriminate.
Qed.

Lemma skip_white_space_suffix (s b : jstring) :
  skip_white_space s <> [] ->
  skip_white_space (s ++ b) = skip_white_space s ++ b.
Proof.
  induction s as [| c s IH]; simpl; [congruence |].
  destruct (is_white_space c); [exact IH | reflexivity].
Qed.

Lemma blank_rev (b : jstring) :
  forallb is_white_space b = true ->
  forallb is_white_space (rev b) = true.
Proof.
  rewrite !forallb_forall. intros blank c found.
  apply blank, in_rev, found.
Qed.

Lemma trim_padding (a s b : jstring) :
  forallb is_white_space a = true ->
  forallb is_white_space b = true ->
  trim (a ++ s ++ b) = trim s.
Proof.
  intros before behind. unfold trim.
  rewrite skip_white_space_prefix by exact before.
  destruct (skip_white_space s) as [| c r] eqn:inner.
  - apply skip_white_space_blank in inner.
    rewrite skip_white_space_prefix by exact inner.
    apply skip_white_space_blank in behind. rewrite behind. reflexivity.
  - rewrite skip_white_space_suffix by (rewrite inner; discriminate).
    rewrite inner, rev_app_distr. f_equal.
    apply skip_white_space_prefix, blank_rev, behind.
Qed.

Lemma Number_trim (s s' : jstring) :
  trim s = trim s' -> Number s = Number s'.
Proof. unfold Number. intros same. rewrite same. reflexivity. Qed.

(** X2: [validatePositiveNumber] does not see white space around its
    input: padding a string with white-space characters on either side
    does not change the verdict. *)
Theorem validatePositiveNumber_padding (a s b : jstring) :
  forallb is_white_space a = true ->
  forallb is_white_space b = true ->
  validatePositiveNumber (a ++ s ++ b) = validatePositiveNumber s.
Proof.
  intros before behind. unfold validatePositiveNumber.
  rewrite (Number_trim (a ++ s ++ b) s); [reflexivity |].
  apply trim_padding; assumption.
Qed.

Lemma validatePositiveNumber_padding_witness :
  validatePositiveNumber (str " " ++ str "5" ++ [10%N; 0xA0%N]) = true.
Proof.
  rewrite (validatePositiveNumber_padding (str " ") (str "5")
             [10%N; 0xA0%N] eq_refl eq_refl).
  vm_compute. reflexivity.
Defined.

(** X3: a string of white space only (the empty string included) is
    rejected: [Number] reads it as 0. *)
Theorem validatePositiveNumber_blank (s : jstring) :
  forallb is_white_space s = true -> validatePositiveNumber s = false.
Proof.
  intros blank. unfold validatePositiveNumber.
  rewrite (Number_trim s []); [reflexivity |].
  rewrite <- (app_nil_r s). change (s ++ []) with (s ++ [] ++ []).
  apply (trim_padding s [] []); [exact blank | reflexivity].
Qed.

Lemma validatePositiveNumber_blank_witness :
  validatePositiveNumber (str "   ") = false.
Proof. exact (validatePositiveNumber_blank (str "   ") eq_refl). Defined.

Lemma skip_white_space_last (c : N) (l : jstring) :
  is_white_space c = false ->
  exists l', skip_white_space (l ++ [c]) = l' ++ [c].
Proof.
  intros solid. induction l as [| x l [l' IH]]; simpl.
  - rewrite solid. now exists [].
  - destruct (is_white_space x); [now exists l' | now exists (x :: l)].
Qed.

Lemma trim_first (c : N) (s : jstring) :
  is_white_space c = false -> exists u, trim (c :: s) = c :: u.
Proof.
  intros solid. unfold trim. simpl. rewrite solid. simpl.
  destruct (skip_white_space_last c (rev s) solid) as [l' kept].
  rewrite kept, rev_app_distr. simpl. now exists (rev l').
Qed.

Lemma binary_round_aux_negative (mx ex : Z) (lx : location) :
  greater_than (binary_round_aux prec emax true mx ex lx)
    (S754_zero false) = false.
Proof.
  unfold binary_round_aux.
  destruct (shr_fexp prec emax mx ex lx) as [first e'].
  destruct (shr_fexp prec emax _ e' loc_Exact) as [second e''].
  destruct (shr_m second); [reflexivity | | reflexivity].
  destruct (e'' <=? emax - prec); reflexivity.
Qed.

Lemma round_decimal_negative (m : N) (e : Z) :
  greater_than (round_decimal true m e) (S754_zero false) = false.
Proof.
  unfold round_decimal. destruct m as [| p]; [reflexivity |].
  destruct (0 <=? e).
  - unfold binary_round.
    destruct (shl_align _ _ _) as [mz ez].
    apply binary_round_aux_negative.
  - unfold SFdiv.
    destruct (SFdiv_core_binary _ _ _ _ _ _) as [[mz ez] lz].
    apply binary_round_aux_negative.
Qed.

(** X4: an input that starts with a minus sign, after any white space,
    is rejected, whatever follows the sign. *)
Theorem validatePositiveNumber_minus (a s : jstring) :
  forallb is_white_space a = true ->
  validatePositiveNumber (a ++ 45%N :: s) = false.
Proof.
  intros before. unfold validatePositiveNumber.
  assert (same : Number (a ++ 45%N :: s) = Number (45%N :: s)).
  { apply Number_trim.
    rewrite <- (app_nil_r (45%N :: s)) at 1.
    apply (trim_padding a (45%N :: s) []); [exact before | reflexivity]. }
  rewrite same. clear same.
  assert (low : greater_than (Number (45%N :: s)) (S754_zero false)
                = false).
  { unfold Number.
    destruct (trim_first 45 s eq_refl) as [u trimmed]. rewrite trimmed.
    unfold signed_decimal.
    destruct (jstring_eqb u infinity_literal); [reflexivity |].
    destruct (unsigned_decimal u) as [[m e] |].
    - apply round_decimal_negative.
    - reflexivity. }
  rewrite low. apply andb_false_r.
Qed.

Lemma validatePositiveNumber_minus_witness :
  validatePositiveNumber (str "  " ++ 45%N :: str "0.5e3") = false.
Proof.
  exact (validatePositiveNumber_minus (str "  ") (str "0.5e3") eq_refl).
Defined.

(** ** More on the allocation page *)

Lemma lookup_absent (k : jstring) (properties : list (jstring * value)) :
  Forall (fun property => jstring_eqb k (fst property) = false)
    properties ->
  lookup k properties = VUndefined.
Proof.
  induction 1 as [| [k' v] rest other _ IH]; simpl; [reflexivity |].
  simpl in other. rewrite other. exact IH.
Qed.

Section AllocationPage.
Context {engine : Engine}.
Variable server : remote.

(** X5: loading the items sends one GET /items. A success replaces the
    items by the list received and shows nothing; any failure keeps the
    items already held and shows "Error fetching items" with its timer.
    The budget and the allocation results are not touched. *)
Theorem fetchItems_outcome (now : Z) (st : Portfolio.state) :
  let out := Portfolio.fetchItems server now st in
  snd out = [GetItems] /\
  Portfolio.portfolioValue (fst out) = Portfolio.portfolioValue st /\
  Portfolio.allocationResults (fst out) = Portfolio.allocationResults st /\
  match Session.body (get_items server) with
  | Some l =>
      Portfolio.items (fst out) = l /\
      Portfolio.errorMessage (fst out) = Portfolio.errorMessage st /\
      Portfolio.timers (fst out) = Portfolio.timers st
  | None =>
      Portfolio.items (fst out) = Portfolio.items st /\
      Portfolio.errorMessage (fst out) = str "Error fetching items" /\
      Portfolio.timers (fst out) = Portfolio.timers st ++ [now + 2000]
  end.
Proof.
  unfold Portfolio.fetchItems, Session.body.
  destruct (get_items server) as [[[|] [l | m]] | m]; simpl;
    repeat split; reflexivity.
Qed.

(** X6: loading the budget sends one GET /portfolio. When the answer is
    a success whose body can be read for [portfolio_value], the budget
    becomes that value and nothing is shown; in every other case (no
    answer, a status that is not ok, a body that is not JSON, the body
    [null]) the budget stays and "Error fetching portfolio value" is
    shown with its timer. The items and the results are not touched. *)
Theorem fetchPortfolioValue_outcome (now : Z) (st : Portfolio.state) :
  let out := Portfolio.fetchPortfolioValue server now st in
  snd out = [GetPortfolio] /\
  Portfolio.items (fst out) = Portfolio.items st /\
  Portfolio.allocationResults (fst out) = Portfolio.allocationResults st /\
  match Session.fetched_value server with
  | Some v =>
      Portfolio.portfolioValue (fst out) = v /\
      Portfolio.errorMessage (fst out) = Portfolio.errorMessage st /\
      Portfolio.timers (fst out) = Portfolio.timers st
  | None =>
      Portfolio.portfolioValue (fst out) = Portfolio.portfolioValue st /\
      Portfolio.errorMessage (fst out)
      = str "Error fetching portfolio value" /\
      Portfolio.timers (fst out) = Portfolio.timers st ++ [now + 2000]
  end.
Proof.
  unfold Portfolio.fetchPortfolioValue, Session.fetched_value, Session.body.
  destruct (get_portfolio server) as [[[|] [data | m]] | m]; simpl;
    try (repeat split; reflexivity).
  destruct (get data (str "portfolio_value")); simpl;
    repeat split; reflexivity.
Qed.

(** X7: a budget answer whose body is the JSON value [null] is
    handled as a failure: reading [portfolio_value] from it throws, the
    budget stays what it was and "Error fetching portfolio value" is
    shown. *)
Theorem fetchPortfolioValue_null_body (now : Z) (st : Portfolio.state) :
  get_portfolio server = Return {| ok := true; json := Return VNull |} ->
  let out := Portfolio.fetchPortfolioValue server now st in
  Portfolio.portfolioValue (fst out) = Portfolio.portfolioValue st /\
  Portfolio.errorMessage (fst out) = str "Error fetching portfolio value" /\
  Portfolio.timers (fst out) = Portfolio.timers st ++ [now + 2000].
Proof.
  intros answer. unfold Portfolio.fetchPortfolioValue. rewrite answer.
  simpl. repeat split; reflexivity.
Qed.

(** X8: a budget answer whose body is an object without the key
    [portfolio_value] is a success: no message is shown, and the budget
    becomes [undefined], which Calculate does not take for an absent
    budget. *)
Theorem fetchPortfolioValue_missing_key
  (now : Z) (st : Portfolio.state) (properties : list (jstring * value)) :
  get_portfolio server
  = Return {| ok := true; json := Return (VObj properties) |} ->
  Forall (fun property =>
            jstring_eqb (str "portfolio_value") (fst property) = false)
    properties ->
  let out := Portfolio.fetchPortfolioValue server now st in
  Portfolio.portfolioValue (fst out) = VUndefined /\
  is_null (Portfolio.portfolioValue (fst out)) = false /\
  Portfolio.errorMessage (fst out) = Portfolio.errorMessage st /\
  Portfolio.timers (fst out) = Portfolio.timers st.
Proof.
  intros answer missing. unfold Portfolio.fetchPortfolioValue.
  rewrite answer. simpl.
  rewrite (lookup_absent _ _ missing). repeat split; reflexivity.
Qed.

(** X9: whatever the server answers, Calculate changes neither the
    items nor the budget; it sends nothing or the one compute request
    built from them; and it either stores a result and shows nothing,
    or keeps the results and shows one message with one timer. *)
Theorem handleCalculate_frame (now : Z) (st : Portfolio.state) :
  let out := Portfolio.handleCalculate server now st in
  Portfolio.items (fst out) = Portfolio.items st /\
  Portfolio.portfolioValue (fst out) = Portfolio.portfolioValue st /\
  (snd out = [] \/
   snd out
   = [PostCalculate (Portfolio.portfolioValue st)
        (map ticker (Portfolio.items st))]) /\
  ((Portfolio.errorMessage (fst out) = Portfolio.errorMessage st /\
    Portfolio.timers (fst out) = Portfolio.timers st /\
    snd out <> []) \/
   (Portfolio.allocationResults (fst out) = Portfolio.allocationResults st /\
    Portfolio.timers (fst out) = Portfolio.timers st ++ [now + 2000])).
Proof.
  unfold Portfolio.handleCalculate.
  destruct (is_null (Portfolio.portfolioValue st)
            || (List.length (Portfolio.items st) =? 0)%nat); simpl.
  - repeat split; auto.
  - destruct (post_calculate server _ _) as [[[|] [data | m]] | m]; simpl;
      try (repeat split; auto; fail).
    + repeat split; auto. left. repeat split; discriminate.
    + destruct (get data (str "error")) as [e | m]; simpl;
        [destruct (error_message _); simpl |]; repeat split; auto.
Qed.

End AllocationPage.

Lemma fetchItems_outcome_witness :
  Portfolio.items
    (fst (Portfolio.fetchItems Scenario.refusing 0 Portfolio.initial))
  = [Scenario.aapl; Scenario.msft] /\
  Portfolio.items
    (fst (Portfolio.fetchItems Cases.broken 0 Scenario.configured))
  = [Scenario.aapl; Scenario.msft] /\
  Portfolio.errorMessage
    (fst (Portfolio.fetchItems Cases.broken 0 Scenario.configured))
  = str "Error fetching items".
Proof.
  pose proof (fetchItems_outcome Scenario.refusing 0 Portfolio.initial)
    as (_ & _ & _ & loaded & _).
  pose proof (fetchItems_outcome Cases.broken 0 Scenario.configured)
    as (_ & _ & _ & kept & shown & _).
  exact (conj loaded (conj kept shown)).
Defined.

Lemma fetchPortfolioValue_null_body_witness :
  let out :=
    Portfolio.fetchPortfolioValue (engine := Scenario.v8)
      (Cases.with_portfolio (Scenario.success VNull) Scenario.empty_list)
      0 Scenario.configured in
  Portfolio.portfolioValue (fst out) = Scenario.num "10000" /\
  Portfolio.errorMessage (fst out) = str "Error fetching portfolio value" /\
  Portfolio.timers (fst out) = [2000].
Proof.
  exact (fetchPortfolioValue_null_body (engine := Scenario.v8)
           (Cases.with_portfolio (Scenario.success VNull)
              Scenario.empty_list)
           0 Scenario.configured eq_refl).
Defined.

Lemma fetchPortfolioValue_missing_key_witness :
  let out :=
    Portfolio.fetchPortfolioValue (engine := Scenario.v8)
      (Cases.with_portfolio
         (Scenario.success (VObj [(str "value", Scenario.num "7")]))
         Scenario.empty_list)
      0 Scenario.configured in
  Portfolio.portfolioValue (fst out) = VUndefined /\
  is_null (Portfolio.portfolioValue (fst out)) = false /\
  Portfolio.errorMessage (fst out) = [] /\
  Portfolio.timers (fst out) = [].
Proof.
  refine (fetchPortfolioValue_missing_key (engine := Scenario.v8)
            (Cases.with_portfolio
               (Scenario.success (VObj [(str "value", Scenario.num "7")]))
               Scenario.empty_list)
            0 Scenario.configured [(str "value", Scenario.num "7")]
            eq_refl _).
  repeat constructor.
Defined.

(** ** Time and the notifications of the allocation page *)

Lemma due_split (t' t : Z) (l : list Z) :
  t' <= t ->
  existsb (fun due => due <=? t) (filter (fun due => t' <? due) l)
  || existsb (fun due => due <=? t') l
  = existsb (fun due => due <=? t) l /\
  filter (fun due => t <? due) (filter (fun due => t' <? due) l)
  = filter (fun due => t <? due) l.
Proof.
  intros order. induction l as [| due l [some rest]]; simpl;
    [split; reflexivity |].
  destruct (Z.ltb_spec t' due) as [later | sooner]; simpl.
  - destruct (Z.leb_spec due t'); [lia |]. simpl.
    rewrite <- some, rest. split; [| reflexivity].
    destruct (due <=? t); reflexivity.
  - destruct (Z.leb_spec due t'); [| lia].
    destruct (Z.leb_spec due t); [| lia].
    destruct (Z.ltb_spec t due); [lia |].
    rewrite rest. split; [| reflexivity]. simpl.
    apply orb_true_r.
Qed.

(** X10: letting time pass in two stages is the same as letting it pass
    at once: the timers that ran at the earlier time and those that run
    at the later one leave the state in which all due at the later time
    ran together. *)
Theorem elapse_twice (t' t : Z) (st : Portfolio.state) :
  t' <= t ->
  Portfolio.elapse t (Portfolio.elapse t' st) = Portfolio.elapse t st.
Proof.
  intros order.
  destruct (due_split t' t (Portfolio.timers st) order) as [some rest].
  unfold Portfolio.elapse at 1 3.
  assert (queue : Portfolio.timers (Portfolio.elapse t' st)
                  = filter (fun due => t' <? due) (Portfolio.timers st)).
  { unfold Portfolio.elapse. reflexivity. }
  rewrite queue, rest, <- some.
  unfold Portfolio.elapse.
  destruct (existsb (fun due => due <=? t') (Portfolio.timers st));
    destruct (existsb (fun due => due <=? t)
                (filter (fun due => t' <? due) (Portfolio.timers st)));
    reflexivity.
Qed.

Lemma elapse_twice_witness :
  Portfolio.elapse 2600
    (Portfolio.elapse 2100
       (Portfolio.showError 500 (str "second")
          (Portfolio.showError 0 (str "first") Portfolio.initial)))
  = Portfolio.elapse 2600
      (Portfolio.showError 500 (str "second")
         (Portfolio.showError 0 (str "first") Portfolio.initial)).
Proof.
  exact (elapse_twice 2100 2600
           (Portfolio.showError 500 (str "second")
              (Portfolio.showError 0 (str "first") Portfolio.initial))
           ltac:(lia)).
Defined.

Lemma none_due_yet (t : Z) (l : list Z) :
  existsb (fun due => due <=? t) l = false ->
  filter (fun due => t <? due) l = l.
Proof.
  induction l as [| due l IH]; simpl; [reflexivity |].
  intros none. apply orb_false_iff in none. destruct none as [this rest].
  destruct (Z.leb_spec due t); [discriminate this |].
  destruct (Z.ltb_spec t due); [| lia]. now rewrite IH.
Qed.

Lemma all_due (t : Z) (l : list Z) :
  Forall (fun due => due <= t) l ->
  filter (fun due => t <? due) l = [] /\
  (l <> [] -> existsb (fun due => due <=? t) l = true).
Proof.
  induction 1 as [| due l this _ [gone _]]; simpl; [now split |].
  destruct (Z.ltb_spec t due); [lia |].
  destruct (Z.leb_spec due t); [| lia]. now split.
Qed.

Lemma armed_elapse (T t : Z) (st : Portfolio.state) :
  Session.armed T st -> Session.armed T (Portfolio.elapse t st).
Proof.
  intros [bound backed]. unfold Session.armed, Portfolio.elapse.
  destruct (existsb (fun due => due <=? t) (Portfolio.timers st)) eqn:due;
    simpl.
  - split; [| congruence].
    apply Forall_forall. intros d found. apply filter_In in found.
    rewrite Forall_forall in bound. apply bound, found.
  - rewrite (none_due_yet t _ due). split; assumption.
Qed.

Section AllocationSessions.
Context {engine : Engine}.

(** A handler run at one instant is its part before the [await]
    followed by its part after it. *)
Lemma fetchItems_settles
  (server : remote) (now : Z) (st : Portfolio.state) :
  Portfolio.fetchItems server now st
  = (Session.items_settled (get_items server) now st, [GetItems]).
Proof. reflexivity. Qed.

Lemma fetchPortfolioValue_settles
  (server : remote) (now : Z) (st : Portfolio.state) :
  Portfolio.fetchPortfolioValue server now st
  = (Session.portfolioValue_settled (get_portfolio server) now st,
     [GetPortfolio]).
Proof. reflexivity. Qed.

Lemma handleCalculate_settles
  (server : remote) (now : Z) (st : Portfolio.state) :
  Portfolio.handleCalculate server now st
  = match Session.calculate_pressed now st with
    | (st', []) => (st', [])
    | (st', sent) =>
        (Session.calculate_settled
           (post_calculate server (Portfolio.portfolioValue st)
              (map ticker (Portfolio.items st))) now st', sent)
    end.
Proof.
  unfold Portfolio.handleCalculate, Session.calculate_pressed.
  destruct (is_null (Portfolio.portfolioValue st)
            || (List.length (Portfolio.items st) =? 0)%nat); reflexivity.
Qed.

(** An event of the page leaves the message and the timers alone, or
    shows a message and appends its timer. *)
Lemma portfolio_step_shows
  (now : Z) (event : Session.portfolio_event) (st : Portfolio.state) :
  let st' := Session.portfolio_step now event st in
  (Portfolio.errorMessage st' = Portfolio.errorMessage st /\
   Portfolio.timers st' = Portfolio.timers st) \/
  Portfolio.timers st' = Portfolio.timers st ++ [now + 2000].
Proof.
  destruct event as [answer | answer | | answer]; simpl.
  - unfold Session.portfolioValue_settled.
    destruct answer as [[[|] [data | m]] | m]; simpl;
      try (right; reflexivity).
    destruct (get data (str "portfolio_value")); simpl;
      [left; split; reflexivity | right; reflexivity].
  - unfold Session.items_settled.
    destruct answer as [[[|] [data | m]] | m]; simpl;
      first [left; split; reflexivity | right; reflexivity].
  - unfold Session.calculate_pressed.
    destruct (is_null (Portfolio.portfolioValue st)
              || (List.length (Portfolio.items st) =? 0)%nat); simpl;
      [right; reflexivity | left; split; reflexivity].
  - unfold Session.calculate_settled.
    destruct answer as [[[|] [data | m]] | m]; simpl;
      try (right; reflexivity).
    + left; split; reflexivity.
    + destruct (get data (str "error")) as [e | m]; simpl;
        [destruct (error_message _); simpl |]; right; reflexivity.
Qed.

Lemma armed_step
  (T now : Z) (event : Session.portfolio_event) (st : Portfolio.state) :
  now <= T -> Session.armed T st ->
  Session.armed T (Session.portfolio_step now event st).
Proof.
  intros early [bound backed].
  destruct (portfolio_step_shows now event st)
    as [[message queue] | queue]; unfold Session.armed;
    rewrite queue.
  - rewrite message. split; assumption.
  - split.
    + apply Forall_app. split; [exact bound |].
      constructor; [lia | constructor].
    + intros _. destruct (Portfolio.timers st); discriminate.
Qed.

Lemma armed_run
  (T : Z) (events : list (Session.timed Session.portfolio_event))
  (st : Portfolio.state) :
  Forall (fun e => Session.at_time e <= T) events ->
  Session.armed T st -> Session.armed T (Session.portfolio_run events st).
Proof.
  intros early. revert st.
  induction early as [| e events this _ IH]; intros st kept; simpl;
    [exact kept |].
  apply IH, armed_step; [exact this |]. apply armed_elapse, kept.
Qed.

Lemma fetchItems_failed
  (server : remote) (now : Z) (st : Portfolio.state) :
  Session.body (get_items server) = None ->
  fst (Portfolio.fetchItems server now st)
  = Portfolio.showError now (str "Error fetching items") st.
Proof.
  unfold Portfolio.fetchItems, Session.body.
  destruct (get_items server) as [[[|] [data | m]] | m]; simpl;
    intros failed; try discriminate failed; reflexivity.
Qed.

Lemma fetchPortfolioValue_failed
  (server : remote) (now : Z) (st : Portfolio.state) :
  Session.fetched_value server = None ->
  fst (Portfolio.fetchPortfolioValue server now st)
  = Portfolio.showError now (str "Error fetching portfolio value") st.
Proof.
  unfold Portfolio.fetchPortfolioValue, Session.fetched_value, Session.body.
  destruct (get_portfolio server) as [[[|] [data | m]] | m]; simpl;
    intros failed; try discriminate failed; try reflexivity.
  destruct (get data (str "portfolio_value")); simpl;
    [discriminate failed | reflexivity].
Qed.

(** X11: no message stays on the allocation page. After any sequence of
    its events (a load settling, Calculate pressed, a compute call
    settling), whatever the answers, once 2000 ms have passed since the
    last event the message is empty and no timer is pending. The time
    counts from the last event, a settlement included, not from the last
    press. *)
Theorem notifications_expire
  (T t : Z) (events : list (Session.timed Session.portfolio_event)) :
  Forall (fun e => Session.at_time e <= T) events ->
  T + 2000 <= t ->
  let st :=
    Portfolio.elapse t (Session.portfolio_run events Portfolio.initial) in
  Portfolio.errorMessage st = [] /\ Portfolio.timers st = [].
Proof.
  intros early late.
  assert (kept : Session.armed T
                   (Session.portfolio_run events Portfolio.initial)).
  { apply armed_run; [exact early |]. split; simpl; [constructor | auto]. }
  destruct kept as [bound backed].
  assert (due : Forall (fun due => due <= t)
                  (Portfolio.timers
                     (Session.portfolio_run events Portfolio.initial))).
  { apply Forall_forall. intros d found.
    rewrite Forall_forall in bound. specialize (bound d found). lia. }
  destruct (all_due t _ due) as [gone some].
  simpl. unfold Portfolio.elapse. rewrite gone. split; [| reflexivity].
  destruct (Portfolio.timers
              (Session.portfolio_run events Portfolio.initial)) eqn:queue.
  - simpl.
    destruct (Portfolio.errorMessage
                (Session.portfolio_run events Portfolio.initial));
      [reflexivity |].
    exfalso. apply backed; [discriminate | reflexivity].
  - rewrite some by discriminate. reflexivity.
Qed.

(** X12: the two requests of [useEffect] share the one message of the
    page. When both fail, the message displayed is that of the request
    that completed last; the other one is overwritten. *)
Theorem initial_load_last_failure_wins
  (server : remote) (first second : Z) (st : Portfolio.state) :
  Session.body (get_items server) = None ->
  Session.fetched_value server = None ->
  Portfolio.errorMessage
    (fst (Portfolio.fetchItems server second
            (fst (Portfolio.fetchPortfolioValue server first st))))
  = str "Error fetching items" /\
  Portfolio.errorMessage
    (fst (Portfolio.fetchPortfolioValue server second
            (fst (Portfolio.fetchItems server first st))))
  = str "Error fetching portfolio value".
Proof.
  intros no_items no_value. split.
  - rewrite fetchItems_failed by exact no_items. reflexivity.
  - rewrite fetchPortfolioValue_failed by exact no_value. reflexivity.
Qed.

End AllocationSessions.

Lemma notifications_expire_witness :
  let events :=
    [ {| Session.at_time := 0;
         Session.happens :=
           Session.PortfolioValueSettled
             (get_portfolio Scenario.refusing) |};
      {| Session.at_time := 10;
         Session.happens :=
           Session.ItemsSettled (get_items Scenario.refusing) |};
      {| Session.at_time := 500;
         Session.happens := Session.CalculatePressed |};
      {| Session.at_time := 1800;
         Session.happens :=
           Session.CalculateSettled
             (post_calculate Scenario.refusing VNull []) |} ] in
  let st :=
    Session.portfolio_run (engine := Scenario.v8) events
      Portfolio.initial in
  Portfolio.errorMessage (Portfolio.elapse 2600 st)
  = str "Not enough data" /\
  Portfolio.errorMessage (Portfolio.elapse 3800 st) = [].
Proof.
  intros events st. split; [reflexivity |].
  refine (proj1 (notifications_expire (engine := Scenario.v8) 1800 3800
                   events _ _)).
  - repeat constructor; simpl; lia.
  - lia.
Defined.

Lemma initial_load_last_failure_wins_witness :
  Portfolio.errorMessage
    (fst (Portfolio.fetchItems Cases.broken 20
            (fst (Portfolio.fetchPortfolioValue (engine := Scenario.v8)
                    Cases.broken 10 Portfolio.initial))))
  = str "Error fetching items" /\
  Portfolio.errorMessage
    (fst (Portfolio.fetchPortfolioValue (engine := Scenario.v8)
            Cases.broken 20
            (fst (Portfolio.fetchItems Cases.broken 10 Portfolio.initial))))
  = str "Error fetching portfolio value".
Proof.
  exact (initial_load_last_failure_wins (engine := Scenario.v8)
           Cases.broken 10 20 Portfolio.initial eq_refl eq_refl).
Defined.

(** ** More on the forms of the watch-list page *)

Section MoreForms.
Variable server : remote.

(** X13: when the text typed does not pass [validatePositiveNumber],
    the budget form sends nothing, shows "Portfolio value must be a
    positive number" on the budget channel with its timer, and keeps the
    budget shown and the text typed. *)
Theorem handlePortfolioSubmit_invalid (now : Z) (st : Home.state) :
  validatePositiveNumber (Home.portfolioValue st) = false ->
  let out := Home.handlePortfolioSubmit server now st in
  snd out = [] /\
  Home.portfolioError (fst out)
  = str "Portfolio value must be a positive number" /\
  Home.timers (fst out)
  = Home.timers st ++ [(now + 2000, Home.ClearPortfolioError)] /\
  Home.displayedPortfolioValue (fst out)
  = Home.displayedPortfolioValue st /\
  Home.portfolioValue (fst out) = Home.portfolioValue st /\
  Home.tickerError (fst out) = Home.tickerError st.
Proof.
  intros invalid. unfold Home.handlePortfolioSubmit. rewrite invalid.
  simpl. repeat split; reflexivity.
Qed.

(** X14: when the server does not accept a valid budget, the budget
    shown stays, the text typed is kept in the field, one POST was sent
    and the budget channel shows "Failed to set portfolio value" (a
    status that is not ok, with a body that can be read) or "Error
    setting portfolio value" (no answer, or a body that cannot be
    read). *)
Theorem handlePortfolioSubmit_failure (now : Z) (st : Home.state) :
  validatePositiveNumber (Home.portfolioValue st) = true ->
  Session.accepted (post_portfolio server (Number (Home.portfolioValue st)))
  = false ->
  let out := Home.handlePortfolioSubmit server now st in
  snd out = [PostPortfolio (Number (Home.portfolioValue st))] /\
  Home.displayedPortfolioValue (fst out)
  = Home.displayedPortfolioValue st /\
  Home.portfolioValue (fst out) = Home.portfolioValue st /\
  Home.portfolioError (fst out)
  = match post_portfolio server (Number (Home.portfolioValue st)) with
    | Return {| json := Return _ |} => str "Failed to set portfolio value"
    | _ => str "Error setting portfolio value"
    end /\
  Home.timers (fst out)
  = Home.timers st ++ [(now + 2000, Home.ClearPortfolioError)].
Proof.
  intros valid refused. unfold Home.handlePortfolioSubmit. rewrite valid.
  unfold Session.accepted in refused. simpl.
  destruct (post_portfolio server (Number (Home.portfolioValue st)))
    as [[[|] [data | m]] | m]; simpl in *; try discriminate refused;
    repeat split; reflexivity.
Qed.

(** X15: what leaves the budget form. A request sent by
    [handlePortfolioSubmit] is the POST of [Number] of the text typed,
    which is never NaN, zero or negative; on the wire, after
    [JSON.stringify], it is that number when it is finite and [null]
    when it is [+Infinity] (texts such as "Infinity" or "1e400"). The
    budget shown afterwards is the one shown before, or a number that is
    not NaN and is greater than zero. *)
Theorem handlePortfolioSubmit_on_the_wire (now : Z) (st : Home.state) :
  let out := Home.handlePortfolioSubmit server now st in
  let sent := Number (Home.portfolioValue st) in
  (forall q, In q (snd out) ->
     q = PostPortfolio sent /\
     isNaN sent = false /\
     greater_than sent (S754_zero false) = true /\
     (isFinite sent = true /\ Session.stringified sent = VNum sent \/
      sent = S754_infinity false /\ Session.stringified sent = VNull)) /\
  (Home.displayedPortfolioValue (fst out) = Home.displayedPortfolioValue st
   \/ exists v,
        Home.displayedPortfolioValue (fst out) = VNum v /\
        isNaN v = false /\ greater_than v (S754_zero false) = true).
Proof.
  unfold Home.handlePortfolioSubmit.
  destruct (validatePositiveNumber (Home.portfolioValue st)) eqn:valid;
    simpl.
  - unfold validatePositiveNumber in valid.
    apply andb_true_iff in valid. destruct valid as [number positive].
    apply negb_true_iff in number.
    split.
    + intros q [sent | []]. subst q.
      repeat split; try assumption.
      unfold Session.stringified.
      destruct (Number (Home.portfolioValue st)) as [z | [|] | | z m e];
        try discriminate number; try discriminate positive; simpl; auto.
    + destruct (post_portfolio server (Number (Home.portfolioValue st)))
        as [[[|] [data | m]] | m]; simpl; auto;
        right; exists (Number (Home.portfolioValue st)); auto.
  - split; [intros q [] | left; reflexivity].
Qed.

(** X16: only tickers that pass [validateStockTicker] leave the ticker
    form, as they were typed: a request sent by the form is the POST of
    the text of the field, which is valid, or the GET of the list that
    follows an accepted POST. *)
Theorem handleTickerSubmit_sends_valid (now : Z) (st : Home.state) :
  forall q, In q (snd (Home.handleTickerSubmit server now st)) ->
    validateStockTicker (Home.tickerInput st) = true /\
    (q = PostItems (Home.tickerInput st) \/
     q = GetItems /\
     Session.accepted (post_items server (Home.tickerInput st)) = true).
Proof.
  unfold Home.handleTickerSubmit, Session.accepted.
  destruct (validateStockTicker (Home.tickerInput st)); simpl;
    [| intros q []].
  destruct (post_items server (Home.tickerInput st))
    as [[[|] [data | m]] | m]; simpl; intros q found;
    repeat (destruct found as [found | found]; try subst q; auto);
    try contradiction.
Qed.

(** X17: after an accepted POST of a valid ticker the field is emptied
    and the list is fetched again; the items are then the list the
    server returns (the ticker is not inserted locally), or, when that
    fetch fails, the items held before with "Error fetching items". *)
Theorem handleTickerSubmit_success (now : Z) (st : Home.state) :
  validateStockTicker (Home.tickerInput st) = true ->
  Session.accepted (post_items server (Home.tickerInput st)) = true ->
  let out := Home.handleTickerSubmit server now st in
  snd out = [PostItems (Home.tickerInput st); GetItems] /\
  Home.tickerInput (fst out) = [] /\
  match Session.body (get_items server) with
  | Some l =>
      Home.items (fst out) = l /\
      Home.tickerError (fst out) = Home.tickerError st /\
      Home.timers (fst out) = Home.timers st
  | None =>
      Home.items (fst out) = Home.items st /\
      Home.tickerError (fst out) = str "Error fetching items" /\
      Home.timers (fst out)
      = Home.timers st ++ [(now + 2000, Home.ClearTickerError)]
  end.
Proof.
  intros valid taken. unfold Home.handleTickerSubmit. rewrite valid.
  unfold Session.accepted in taken. simpl.
  destruct (post_items server (Home.tickerInput st)) as [[[|] body] | m];
    simpl in *; try discriminate taken.
  unfold Home.fetchItems, Session.body.
  destruct (get_items server) as [[[|] [l | m]] | m]; simpl;
    repeat split; reflexivity.
Qed.

(** X18: when the server does not accept a valid ticker, the text stays
    in the field, the items are kept, the list is not fetched, and the
    ticker channel shows "Failed to add item" (a status that is not ok,
    with a body that can be read) or "Error adding item" (no answer, or
    a body that cannot be read). *)
Theorem handleTickerSubmit_failure (now : Z) (st : Home.state) :
  validateStockTicker (Home.tickerInput st) = true ->
  Session.accepted (post_items server (Home.tickerInput st)) = false ->
  let out := Home.handleTickerSubmit server now st in
  snd out = [PostItems (Home.tickerInput st)] /\
  Home.tickerInput (fst out) = Home.tickerInput st /\
  Home.items (fst out) = Home.items st /\
  Home.tickerError (fst out)
  = match post_items server (Home.tickerInput st) with
    | Return {| json := Return _ |} => str "Failed to add item"
    | _ => str "Error adding item"
    end /\
  Home.timers (fst out)
  = Home.timers st ++ [(now + 2000, Home.ClearTickerError)].
Proof.
  intros valid refused. unfold Home.handleTickerSubmit. rewrite valid.
  unfold Session.accepted in refused. simpl.
  destruct (post_items server (Home.tickerInput st))
    as [[[|] [data | m]] | m]; simpl in *; try discriminate refused;
    repeat split; reflexivity.
Qed.

End MoreForms.

Lemma handlePortfolioSubmit_invalid_witness :
  let out :=
    Home.handlePortfolioSubmit Scenario.empty_list 0
      (Home.setPortfolioValue (str "-5") Home.initial) in
  snd out = [] /\
  Home.portfolioError (fst out)
  = str "Portfolio value must be a positive number" /\
  Home.timers (fst out) = [(2000, Home.ClearPortfolioError)] /\
  Home.displayedPortfolioValue (fst out) = VNull /\
  Home.portfolioValue (fst out) = str "-5" /\
  Home.tickerError (fst out) = [].
Proof.
  refine (handlePortfolioSubmit_invalid Scenario.empty_list 0
            (Home.setPortfolioValue (str "-5") Home.initial) _).
  vm_compute. reflexivity.
Defined.

Lemma handlePortfolioSubmit_failure_witness :
  let out :=
    Home.handlePortfolioSubmit Cases.broken 0
      (Home.setPortfolioValue (str "500") Home.initial) in
  Home.displayedPortfolioValue (fst out) = VNull /\
  Home.portfolioValue (fst out) = str "500" /\
  Home.portfolioError (fst out) = str "Error setting portfolio value".
Proof.
  refine (let proved :=
            handlePortfolioSubmit_failure Cases.broken 0
              (Home.setPortfolioValue (str "500") Home.initial) _ _ in
          conj (proj1 (proj2 proved))
            (conj (proj1 (proj2 (proj2 proved)))
               (proj1 (proj2 (proj2 (proj2 proved)))))).
  - vm_compute. reflexivity.
  - reflexivity.
Defined.

Lemma handlePortfolioSubmit_on_the_wire_witness :
  Number (str "1e400") = S754_infinity false /\
  Session.stringified (Number (str "1e400")) = VNull.
Proof.
  pose proof (proj1 (handlePortfolioSubmit_on_the_wire
                       Scenario.empty_list 0
                       (Home.setPortfolioValue (str "1e400") Home.initial))
                (PostPortfolio (Number (str "1e400"))))
    as sent.
  assert (posted : In (PostPortfolio (Number (str "1e400")))
                     (snd (Home.handlePortfolioSubmit Scenario.empty_list 0
                             (Home.setPortfolioValue (str "1e400")
                                Home.initial)))).
  { vm_compute. left. reflexivity. }
  destruct (sent posted) as (_ & _ & _ & [[finite _] | infinite]).
  - vm_compute in finite. discriminate finite.
  - exact infinite.
Defined.

Lemma handleTickerSubmit_sends_valid_witness :
  validateStockTicker (str "MSFT") = true.
Proof.
  refine (proj1 (handleTickerSubmit_sends_valid Scenario.refusing 0
                   (Home.setTickerInput (str "MSFT") Scenario.listing)
                   GetItems _)).
  vm_compute. right. left. reflexivity.
Defined.

Lemma handleTickerSubmit_success_witness :
  let out :=
    Home.handleTickerSubmit Scenario.refusing 0
      (Home.setTickerInput (str "MSFT") Scenario.listing) in
  snd out = [PostItems (str "MSFT"); GetItems] /\
  Home.tickerInput (fst out) = [] /\
  Home.items (fst out) = [Scenario.aapl; Scenario.msft] /\
  Home.tickerError (fst out) = [] /\
  Home.timers (fst out) = [].
Proof.
  refine (handleTickerSubmit_success Scenario.refusing 0
            (Home.setTickerInput (str "MSFT") Scenario.listing) _ _);
    reflexivity.
Defined.

Lemma handleTickerSubmit_failure_witness :
  let out :=
    Home.handleTickerSubmit Cases.broken 0
      (Home.setTickerInput (str "MSFT") Scenario.listing) in
  snd out = [PostItems (str "MSFT")] /\
  Home.tickerInput (fst out) = str "MSFT" /\
  Home.items (fst out) = [Scenario.aapl] /\
  Home.tickerError (fst out) = str "Error adding item" /\
  Home.timers (fst out) = [(2000, Home.ClearTickerError)].
Proof.
  refine (handleTickerSubmit_failure Cases.broken 0
            (Home.setTickerInput (str "MSFT") Scenario.listing) _ _);
    reflexivity.
Defined.

(** ** More on the watch-list page as a whole *)

Ltac home_cases server st :=
  unfold Home.perform, Home.handleTickerSubmit, Home.handlePortfolioSubmit,
    Home.handleDelete, Home.fetchItems, Home.fetchPortfolioValue,
    Session.body;
  repeat
    match goal with
    | |- context [validateStockTicker ?x] =>
        destruct (validateStockTicker x); simpl
    | |- context [validatePositiveNumber ?x] =>
        destruct (validatePositiveNumber x); simpl
    | |- context [post_items server ?x] =>
        destruct (post_items server x) as [[[|] [?data | ?m]] | ?m]; simpl
    | |- context [post_portfolio server ?x] =>
        destruct (post_portfolio server x) as [[[|] [?data | ?m]] | ?m];
        simpl
    | |- context [delete_item server ?x] =>
        destruct (delete_item server x) as [[[|] [?data | ?m]] | ?m]; simpl
    | |- context [get_items server] =>
        destruct (get_items server) as [[[|] [?data | ?m]] | ?m]; simpl
    | |- context [get_portfolio server] =>
        destruct (get_portfolio server) as [[[|] [?data | ?m]] | ?m];
        simpl
    | |- context [get ?d ?k] => destruct (get d k); simpl
    end.

Lemma pending_showTickerError (c : Home.channel) (now : Z) (m : jstring)
  (st : Home.state) :
  Home.pending c (Home.showTickerError now m st)
  = Home.pending c st
    ++ (if Home.channel_eqb Home.TickerChannel c then [now + 2000] else []).
Proof.
  unfold Home.showTickerError. rewrite pending_setTimeout. reflexivity.
Qed.

Lemma pending_showPortfolioError (c : Home.channel) (now : Z)
  (m : jstring) (st : Home.state) :
  Home.pending c (Home.showPortfolioError now m st)
  = Home.pending c st
    ++ (if Home.channel_eqb Home.PortfolioChannel c
        then [now + 2000] else []).
Proof.
  unfold Home.showPortfolioError. rewrite pending_setTimeout. reflexivity.
Qed.

Ltac pending_shown :=
  repeat first [ rewrite pending_showTickerError
               | rewrite pending_showPortfolioError ].

Lemma run_all_data (l : list (Z * Home.callback)) (s : Home.state) :
  let s' := fold_left (fun s timer => Home.run (snd timer) s) l s in
  Home.items s' = Home.items s /\
  Home.displayedPortfolioValue s' = Home.displayedPortfolioValue s /\
  Home.tickerInput s' = Home.tickerInput s /\
  Home.portfolioValue s' = Home.portfolioValue s.
Proof.
  revert s. induction l as [| [due cb] l IH]; intros s; simpl.
  - repeat split; reflexivity.
  - destruct (IH (Home.run cb s)) as (i & d & t & p).
    rewrite i, d, t, p. destruct cb; repeat split; reflexivity.
Qed.

(** Time passing changes neither the items, nor the budget, nor the
    texts of the two fields. *)
Lemma elapse_data (t : Z) (st : Home.state) :
  Home.items (Home.elapse t st) = Home.items st /\
  Home.displayedPortfolioValue (Home.elapse t st)
  = Home.displayedPortfolioValue st /\
  Home.tickerInput (Home.elapse t st) = Home.tickerInput st /\
  Home.portfolioValue (Home.elapse t st) = Home.portfolioValue st.
Proof.
  unfold Home.elapse.
  destruct (run_all_data
              (filter (fun timer => fst timer <=? t) (Home.timers st))
              (Home.setTimers
                 (filter (fun timer => t <? fst timer) (Home.timers st))
                 st)) as (i & d & k & p).
  rewrite i, d, k, p. repeat split; reflexivity.
Qed.

Lemma home_none_due (t : Z) (l : list (Z * Home.callback)) :
  Forall (fun timer => t < fst timer) l ->
  filter (fun timer => fst timer <=? t) l = [] /\
  filter (fun timer => t <? fst timer) l = l.
Proof.
  induction 1 as [| timer l later _ [none all]]; simpl; [now split |].
  rewrite none, all.
  destruct (Z.leb_spec (fst timer) t); [lia |].
  destruct (Z.ltb_spec t (fst timer)); [now split | lia].
Qed.

Lemma home_elapse_none_due (t : Z) (st : Home.state) :
  Forall (fun timer => t < fst timer) (Home.timers st) ->
  Home.elapse t st = st.
Proof.
  intros later. unfold Home.elapse.
  destruct (home_none_due t _ later) as [none all].
  rewrite none, all. destruct st; reflexivity.
Qed.

Section WatchListPage.
Context {engine : Engine}.
Variable server : remote.

(** X19: the page never edits its list by itself. After any operation
    the items are those held before, or the list the server returned to
    GET /items. *)
Theorem items_come_from_server
  (now : Z) (op : Home.operation) (st : Home.state) :
  let st' := Home.perform server now op st in
  Home.items st' = Home.items st \/
  Session.body (get_items server) = Some (Home.items st').
Proof.
  destruct op as [| | | | id | cb]; simpl.
  - home_cases server st; auto.
  - home_cases server st; auto.
  - home_cases server st; auto.
  - home_cases server st; auto.
  - home_cases server st; auto.
  - destruct cb; auto.
Qed.

(** X20: the two workflows keep to their own data. The operations of
    the ticker workflow change neither the budget shown nor the text of
    the budget field; those of the budget workflow change neither the
    items nor the text of the ticker field. *)
Theorem workflows_keep_apart
  (now : Z) (op : Home.operation) (st : Home.state) :
  let st' := Home.perform server now op st in
  match Home.channel_of op with
  | Home.TickerChannel =>
      Home.displayedPortfolioValue st' = Home.displayedPortfolioValue st /\
      Home.portfolioValue st' = Home.portfolioValue st
  | Home.PortfolioChannel =>
      Home.items st' = Home.items st /\
      Home.tickerInput st' = Home.tickerInput st
  end.
Proof.
  destruct op as [| | | | id | cb]; simpl.
  - home_cases server st; auto.
  - home_cases server st; auto.
  - home_cases server st; auto.
  - home_cases server st; auto.
  - home_cases server st; auto.
  - destruct cb; simpl; auto.
Qed.

(** A load leaves the queue of timers alone or appends its one timer. *)
Lemma loads_queue (now : Z) (st : Home.state) :
  (Home.timers (fst (Home.fetchItems server now st)) = Home.timers st \/
   Home.timers (fst (Home.fetchItems server now st))
   = Home.timers st ++ [(now + 2000, Home.ClearTickerError)]) /\
  (Home.timers (fst (Home.fetchPortfolioValue server now st))
   = Home.timers st \/
   Home.timers (fst (Home.fetchPortfolioValue server now st))
   = Home.timers st ++ [(now + 2000, Home.ClearPortfolioError)]).
Proof.
  split; home_cases server st; auto.
Qed.

(** X21: the two requests of [useEffect] load the same data in either
    order of completion. With one load settling at [first] and the other
    at [second], the timers due running in between, the page ends with
    the same items, budget and field texts whichever of the two settled
    first. When no timer was pending before and the second settles less
    than 2000 ms after the first, the two messages are the same too;
    only their expiries follow the times of settlement. *)
Theorem initial_load_either_order (first second : Z) (st : Home.state) :
  let a :=
    fst (Home.fetchPortfolioValue server second
           (Home.elapse second (fst (Home.fetchItems server first st)))) in
  let b :=
    fst (Home.fetchItems server second
           (Home.elapse second
              (fst (Home.fetchPortfolioValue server first st)))) in
  (Home.items a = Home.items b /\
   Home.displayedPortfolioValue a = Home.displayedPortfolioValue b /\
   Home.tickerInput a = Home.tickerInput b /\
   Home.portfolioValue a = Home.portfolioValue b) /\
  (Home.timers st = [] -> first <= second < first + 2000 ->
   Home.tickerError a = Home.tickerError b /\
   Home.portfolioError a = Home.portfolioError b).
Proof.
  split.
  - pose proof (elapse_data second) as kept.
    generalize dependent (Home.elapse second). intros later kept.
    assert (k1 : forall s, Home.items (later s) = Home.items s)
      by (intros s; apply kept).
    assert (k2 : forall s, Home.displayedPortfolioValue (later s)
                           = Home.displayedPortfolioValue s)
      by (intros s; apply kept).
    assert (k3 : forall s, Home.tickerInput (later s) = Home.tickerInput s)
      by (intros s; apply kept).
    assert (k4 : forall s, Home.portfolioValue (later s)
                           = Home.portfolioValue s)
      by (intros s; apply kept).
    clear kept.
    home_cases server st; rewrite ?k1, ?k2, ?k3, ?k4; simpl;
      rewrite ?k1, ?k2, ?k3, ?k4; repeat split; reflexivity.
  - intros idle close.
    rewrite (home_elapse_none_due second
               (fst (Home.fetchItems server first st))).
    rewrite (home_elapse_none_due second
               (fst (Home.fetchPortfolioValue server first st))).
    + home_cases server st; split; reflexivity.
    + destruct (loads_queue first st) as [_ [same | one]];
        [rewrite same, idle; constructor |].
      rewrite one, idle. simpl. constructor; [simpl; lia | constructor].
    + destruct (loads_queue first st) as [[same | one] _];
        [rewrite same, idle; constructor |].
      rewrite one, idle. simpl. constructor; [simpl; lia | constructor].
Qed.

(** The handlers run at one instant are their parts before and after
    each [await]. *)
Lemma home_loads_settle (now : Z) (st : Home.state) :
  Home.fetchItems server now st
  = (Session.loaded_items (get_items server) now st, [GetItems]) /\
  Home.fetchPortfolioValue server now st
  = (Session.loaded_portfolioValue (get_portfolio server) now st,
     [GetPortfolio]).
Proof. split; reflexivity. Qed.

Lemma handleTickerSubmit_settles (now : Z) (st : Home.state) :
  Home.handleTickerSubmit server now st
  = match Session.ticker_submitted now st with
    | (st1, []) => (st1, [])
    | (st1, sent) =>
        match
          Session.add_settled (post_items server (Home.tickerInput st))
            now st1
        with
        | (st2, true) =>
            (Session.loaded_items (get_items server) now st2,
             sent ++ [GetItems])
        | (st2, false) => (st2, sent)
        end
    end.
Proof.
  unfold Home.handleTickerSubmit, Session.ticker_submitted,
    Session.add_settled.
  destruct (validateStockTicker (Home.tickerInput st)); simpl;
    [| reflexivity].
  destruct (post_items server (Home.tickerInput st))
    as [[[|] [data | m]] | m]; reflexivity.
Qed.

Lemma handlePortfolioSubmit_settles (now : Z) (st : Home.state) :
  Home.handlePortfolioSubmit server now st
  = match Session.portfolio_submitted now st with
    | (st1, []) => (st1, [])
    | (st1, sent) =>
        (Session.budget_settled (Home.portfolioValue st)
           (post_portfolio server (Number (Home.portfolioValue st)))
           now st1, sent)
    end.
Proof.
  unfold Home.handlePortfolioSubmit, Session.portfolio_submitted.
  destruct (validatePositiveNumber (Home.portfolioValue st)); reflexivity.
Qed.

Lemma handleDelete_settles (id : value) (now : Z) (st : Home.state) :
  Home.handleDelete server id now st
  = match Session.delete_settled (delete_item server id) now st with
    | (st1, true) =>
        (Session.loaded_items (get_items server) now st1,
         [DeleteItem id; GetItems])
    | (st1, false) => (st1, [DeleteItem id])
    end.
Proof.
  unfold Home.handleDelete, Session.delete_settled.
  destruct (delete_item server id) as [[[|] [data | m]] | m]; reflexivity.
Qed.

(** An event leaves a channel's pending expiries alone, with its
    message kept, or appends one expiry 2000 ms ahead. *)
Lemma home_step_shows
  (now : Z) (event : Session.home_event) (c : Home.channel)
  (st : Home.state) :
  let st' := Session.home_step now event st in
  (Home.pending c st' = Home.pending c st /\
   Home.message c st' = Home.message c st) \/
  Home.pending c st' = Home.pending c st ++ [now + 2000].
Proof.
  destruct event as
    [text | text | answer | answer | | answer | | typed answer | id
     | answer]; simpl;
    unfold Session.loaded_items, Session.loaded_portfolioValue,
      Session.ticker_submitted, Session.add_settled,
      Session.portfolio_submitted, Session.budget_settled,
      Session.delete_settled;
    try (destruct answer as [[[|] [data | m]] | m]; simpl);
    repeat
      match goal with
      | |- context [validateStockTicker ?x] =>
          destruct (validateStockTicker x); simpl
      | |- context [validatePositiveNumber ?x] =>
          destruct (validatePositiveNumber x); simpl
      | |- context [get ?d ?k] => destruct (get d k); simpl
      end;
    pending_shown; destruct c; simpl; rewrite ?app_nil_r; auto.
Qed.

End WatchListPage.

Lemma channel_armed_elapse
  (T t : Z) (c : Home.channel) (st : Home.state) :
  Session.channel_armed T c st ->
  Session.channel_armed T c (Home.elapse t st).
Proof.
  intros [bound backed]. unfold Session.channel_armed.
  destruct (elapse_by_channel t c st) as [shown left].
  rewrite shown, left.
  destruct (existsb (fun due => due <=? t) (Home.pending c st)) eqn:due.
  - split; [| congruence].
    apply Forall_forall. intros d found. apply filter_In in found.
    rewrite Forall_forall in bound. apply bound, found.
  - rewrite (none_due_yet t _ due). split; assumption.
Qed.

Section WatchListSessions.
Context {engine : Engine}.

Lemma channel_armed_step
  (T now : Z) (event : Session.home_event) (c : Home.channel)
  (st : Home.state) :
  now <= T -> Session.channel_armed T c st ->
  Session.channel_armed T c (Session.home_step now event st).
Proof.
  intros early [bound backed].
  destruct (home_step_shows now event c st)
    as [[queue message] | queue]; unfold Session.channel_armed;
    rewrite queue.
  - rewrite message. split; assumption.
  - split.
    + apply Forall_app. split; [exact bound |].
      constructor; [lia | constructor].
    + intros _. destruct (Home.pending c st); discriminate.
Qed.

Lemma channel_armed_run
  (T : Z) (c : Home.channel)
  (events : list (Session.timed Session.home_event)) (st : Home.state) :
  Forall (fun e => Session.at_time e <= T) events ->
  Session.channel_armed T c st ->
  Session.channel_armed T c (Session.home_run events st).
Proof.
  intros early. revert st.
  induction early as [| e events this _ IH]; intros st kept; simpl;
    [exact kept |].
  apply IH, channel_armed_step; [exact this |].
  apply channel_armed_elapse, kept.
Qed.

(** X22: no message stays on the watch-list page either. After any
    sequence of its events (typing in a field, a load settling, a form
    submitted, a POST or a DELETE settling), whatever the texts and the
    answers, once 2000 ms have passed since the last event both channels
    are empty and neither has an expiry pending. The time counts from
    the last event, a settlement included. *)
Theorem home_notifications_expire
  (T t : Z) (events : list (Session.timed Session.home_event))
  (c : Home.channel) :
  Forall (fun e => Session.at_time e <= T) events ->
  T + 2000 <= t ->
  let st := Home.elapse t (Session.home_run events Home.initial) in
  Home.message c st = [] /\ Home.pending c st = [].
Proof.
  intros early late.
  assert (kept : Session.channel_armed T c
                   (Session.home_run events Home.initial)).
  { apply channel_armed_run; [exact early |].
    split; [destruct c; constructor | destruct c; simpl; auto]. }
  destruct kept as [bound backed].
  assert (due : Forall (fun due => due <= t)
                  (Home.pending c (Session.home_run events Home.initial))).
  { apply Forall_forall. intros d found.
    rewrite Forall_forall in bound. specialize (bound d found). lia. }
  destruct (all_due t _ due) as [gone some].
  destruct (elapse_by_channel t c (Session.home_run events Home.initial))
    as [shown left].
  simpl. rewrite shown, left, gone. split; [| reflexivity].
  destruct (Home.pending c (Session.home_run events Home.initial))
    eqn:queue.
  - simpl.
    destruct (Home.message c (Session.home_run events Home.initial));
      [reflexivity |].
    exfalso. apply backed; [discriminate | reflexivity].
  - rewrite some by discriminate. reflexivity.
Qed.

End WatchListSessions.

Lemma home_notifications_expire_witness :
  let events :=
    [ {| Session.at_time := 0;
         Session.happens :=
           Session.LoadedItems (get_items Scenario.refusing) |};
      {| Session.at_time := 100;
         Session.happens := Session.BudgetTyped (str "500") |};
      {| Session.at_time := 200;
         Session.happens := Session.PortfolioSubmitted |};
      {| Session.at_time := 1700;
         Session.happens :=
           Session.BudgetSettled (str "500")
             (post_portfolio Cases.broken (Number (str "500"))) |} ] in
  let st := Session.home_run (engine := Scenario.v8) events Home.initial in
  Home.message Home.PortfolioChannel (Home.elapse 2300 st)
  = str "Error setting portfolio value" /\
  Home.message Home.PortfolioChannel (Home.elapse 3700 st) = [].
Proof.
  intros events st. split; [reflexivity |].
  refine (proj1 (home_notifications_expire (engine := Scenario.v8)
                   1700 3700 events Home.PortfolioChannel _ _)).
  - repeat constructor; simpl; lia.
  - lia.
Defined.

Section WatchListLoads.
Context {engine : Engine}.
Variable server : remote.

(** X23: the two loads of the watch-list page. Each sends its one GET;
    a success stores what was received (the list, or the value of
    [portfolio_value]) and shows nothing; a failure keeps what was held
    and shows its message on its own channel: "Error fetching items" on
    the ticker channel, "Error fetching portfolio value" on the budget
    channel. *)
Theorem home_loads_outcome (now : Z) (st : Home.state) :
  (let out := Home.fetchItems server now st in
   snd out = [GetItems] /\
   match Session.body (get_items server) with
   | Some l =>
       Home.items (fst out) = l /\
       Home.tickerError (fst out) = Home.tickerError st /\
       Home.timers (fst out) = Home.timers st
   | None =>
       Home.items (fst out) = Home.items st /\
       Home.tickerError (fst out) = str "Error fetching items" /\
       Home.timers (fst out)
       = Home.timers st ++ [(now + 2000, Home.ClearTickerError)]
   end) /\
  (let out := Home.fetchPortfolioValue server now st in
   snd out = [GetPortfolio] /\
   match Session.fetched_value server with
   | Some v =>
       Home.displayedPortfolioValue (fst out) = v /\
       Home.portfolioError (fst out) = Home.portfolioError st /\
       Home.timers (fst out) = Home.timers st
   | None =>
       Home.displayedPortfolioValue (fst out)
       = Home.displayedPortfolioValue st /\
       Home.portfolioError (fst out)
       = str "Error fetching portfolio value" /\
       Home.timers (fst out)
       = Home.timers st ++ [(now + 2000, Home.ClearPortfolioError)]
   end).
Proof.
  split.
  - unfold Home.fetchItems, Session.body.
    destruct (get_items server) as [[[|] [l | m]] | m]; simpl;
      repeat split; reflexivity.
  - unfold Home.fetchPortfolioValue, Session.fetched_value, Session.body.
    destruct (get_portfolio server) as [[[|] [data | m]] | m]; simpl;
      try (repeat split; reflexivity).
    destruct (get data (str "portfolio_value")); simpl;
      repeat split; reflexivity.
Qed.

End WatchListLoads.

(** X24: a message can be cut short. On the ticker channel, when a
    message is shown at T with no expiry of that channel pending and
    another one [d] ms later, with [d] below 2000, the second message is
    displayed until T+2000 only, that is for [2000 - d] ms, whatever the
    budget channel has pending. *)
Theorem ticker_message_cut_short
  (T d : Z) (M1 M2 : jstring) (st : Home.state) :
  Home.pending Home.TickerChannel st = [] ->
  0 <= d < 2000 ->
  let s1 := Home.showTickerError T M1 st in
  let s2 := Home.showTickerError (T + d) M2 (Home.elapse (T + d) s1) in
  forall t, T + d <= t ->
    Home.tickerError (Home.elapse t s2)
    = if t <? T + 2000 then M2 else [].
Proof.
  intros idle short s1 s2 t after.
  destruct (elapse_by_channel t Home.TickerChannel s2) as [shown _].
  simpl in shown. rewrite shown. clear shown.
  assert (queue : Home.pending Home.TickerChannel s2
                  = [T + 2000; T + d + 2000]).
  { subst s2. rewrite pending_showTickerError. simpl.
    destruct (elapse_by_channel (T + d) Home.TickerChannel s1)
      as [_ left]. rewrite left. subst s1.
    rewrite pending_showTickerError, idle. simpl.
    destruct (Z.ltb_spec (T + d) (T + 2000)); [reflexivity | lia]. }
  rewrite queue. simpl.
  destruct (Z.ltb_spec t (T + 2000)).
  - destruct (Z.leb_spec (T + 2000) t); [lia |].
    destruct (Z.leb_spec (T + d + 2000) t); [lia |]. reflexivity.
  - destruct (Z.leb_spec (T + 2000) t); [| lia]. reflexivity.
Qed.

Lemma ticker_message_cut_short_witness :
  let shown :=
    Home.showTickerError 1900 (str "Failed to delete item")
      (Home.elapse 1900
         (Home.showTickerError 0 (str "Error fetching items")
            (Home.showPortfolioError 0
               (str "Error fetching portfolio value") Home.initial))) in
  Home.tickerError (Home.elapse 1999 shown) = str "Failed to delete item"
  /\ Home.tickerError (Home.elapse 2000 shown) = [].
Proof.
  intros shown. split.
  - exact (ticker_message_cut_short 0 1900 (str "Error fetching items")
             (str "Failed to delete item")
             (Home.showPortfolioError 0
                (str "Error fetching portfolio value") Home.initial)
             eq_refl ltac:(lia) 1999 ltac:(lia)).
  - exact (ticker_message_cut_short 0 1900 (str "Error fetching items")
             (str "Failed to delete item")
             (Home.showPortfolioError 0
                (str "Error fetching portfolio value") Home.initial)
             eq_refl ltac:(lia) 2000 ltac:(lia)).
Defined.

(** ** The single channel of the allocation page, and the text of its
    failures *)

(** C4, as stated for every operation, fails on the allocation page. Its
    budget load fails at time 0 and shows its error; its items load
    fails at time 100 and shows its own in the same [errorMessage]: the
    pending error of the budget workflow is gone, and the expiry pending
    is no longer its own alone. *)
Lemma items_error_replaces_budget_error :
  let s1 :=
    fst (Portfolio.fetchPortfolioValue (engine := Scenario.v8)
           Scenario.unreachable 0 Portfolio.initial) in
  let s2 :=
    fst (Portfolio.fetchItems Scenario.unreachable 100
           (Portfolio.elapse 100 s1)) in
  Portfolio.errorMessage s1 = str "Error fetching portfolio value" /\
  ~ (Portfolio.errorMessage s2 = Portfolio.errorMessage s1 /\
     Portfolio.timers s2 = Portfolio.timers s1).
Proof.
  split; [reflexivity |].
  intros [same _]. vm_compute in same. discriminate same.
Qed.

(** C7, as stated, fails when the server cannot be reached: no message
    of the server is present, and the notification is not the fixed
    "Failed to calculate portfolio" but the text of the error that
    [fetch] threw. *)
Lemma unreachable_shows_runtime_text :
  let out :=
    Portfolio.handleCalculate (engine := Scenario.v8)
      Scenario.unreachable 0 Scenario.configured in
  snd out <> [] /\
  Portfolio.errorMessage (fst out) = str "Failed to fetch" /\
  Portfolio.errorMessage (fst out) <> str "Failed to calculate portfolio".
Proof.
  split; [discriminate |]. split; [reflexivity |].
  vm_compute. discriminate.
Qed.

(** An [error] that is an object with an own [toString] cannot be made
    into a message: [new Error] throws, and the notification shows the
    text of that TypeError. *)
Lemma unprintable_error_shows_TypeError :
  let server :=
    {| get_items := get_items Scenario.refusing;
       post_items := post_items Scenario.refusing;
       delete_item := delete_item Scenario.refusing;
       get_portfolio := get_portfolio Scenario.refusing;
       post_portfolio := post_portfolio Scenario.refusing;
       post_calculate := fun _ _ =>
         Scenario.rejected
           (VObj [(str "error",
                   VObj [(str "toString", VNum (of_Z 1))])]) |} in
  Portfolio.errorMessage
    (fst (Portfolio.handleCalculate (engine := Scenario.v8) server 0
            Scenario.configured))
  = str "Cannot convert object to primitive value".
Proof. reflexivity. Qed.

Lemma initial_load_either_order_witness :
  let a :=
    fst (Home.fetchPortfolioValue (engine := Scenario.v8) Cases.broken 20
           (Home.elapse 20
              (fst (Home.fetchItems Cases.broken 10 Home.initial)))) in
  let b :=
    fst (Home.fetchItems Cases.broken 20
           (Home.elapse 20
              (fst (Home.fetchPortfolioValue (engine := Scenario.v8)
                      Cases.broken 10 Home.initial)))) in
  Home.tickerError a = Home.tickerError b /\
  Home.portfolioError a = Home.portfolioError b /\
  Home.pending Home.TickerChannel a = [2010] /\
  Home.pending Home.TickerChannel b = [2020].
Proof.
  intros a b.
  destruct (proj2 (initial_load_either_order (engine := Scenario.v8)
                     Cases.broken 10 20 Home.initial)
              eq_refl ltac:(lia)) as [ticker budget].
  exact (conj ticker (conj budget (conj eq_refl eq_refl))).
Defined.
